(** * integresql-client-go: the client core of [client.go]

    A shallow embedding of the Go client for the IntegreSQL manager
    (package [integresql], file [client.go]) together with the properties of
    its template life cycle, of its status classification and of the request
    paths it builds. *)

From Stdlib Require Import String Ascii List ZArith Lia Bool Arith.
From Stdlib Require Import DecimalString.
From Stdlib Require DecimalZ DecimalPos.
Import ListNotations.

Local Open Scope list_scope.
Local Open Scope string_scope.
Local Open Scope nat_scope.

(* ================================================================== *)
(** * Go standard library: the parts of [path] and [fmt] the client uses *)
(* ================================================================== *)

Module GoPath.

(** [lazybuf.index]: the byte written at position [i] of the output. *)
Definition index (out : string) (i : nat) : ascii :=
  match String.get i out with
  | Some c => c
  | None => "000"%char
  end.

(** The backtracking of a [..] element in [path.Clean]:
<<
    out.w--
    for out.w > dotdot && out.index(out.w) != '/' { out.w-- }
>>
    [backtrack dotdot out w] is called with the decremented [w] and returns
    the final value of [out.w]. *)
Fixpoint backtrack (dotdot : nat) (out : string) (w : nat) : nat :=
  match w with
  | O => O
  | S w' =>
      if (dotdot <? w) && negb (Ascii.eqb (index out w) "/")
      then backtrack dotdot out w'
      else w
  end.

Definition is_slash (c : ascii) : bool := Ascii.eqb c "/".
Definition is_dot (c : ascii) : bool := Ascii.eqb c ".".

(** The test [r+1 == n || path[r+1] == '/'] on what is left after [r]. *)
Definition end_or_slash (rest : string) : bool :=
  match rest with
  | EmptyString => true
  | String c _ => is_slash c
  end.

(** The slash written before a real path element:
    [if rooted && out.w != 1 || !rooted && out.w != 0 { out.append('/') }]. *)
Definition add_slash (rooted : bool) (out : string) : string :=
  if (rooted && negb (String.length out =? 1))
     || (negb rooted && negb (String.length out =? 0))
  then out ++ "/" else out.

(** The [..] case of the loop: the new buffer and the new [dotdot]. *)
Definition dotdot_step (rooted : bool) (out : string) (dotdot : nat)
  : string * nat :=
  if dotdot <? String.length out then
    (substring 0 (backtrack dotdot out (String.length out - 1)) out, dotdot)
  else if negb rooted then
    let out1 := if 0 <? String.length out then out ++ "/" else out in
    let out2 := out1 ++ ".." in
    (out2, String.length out2)
  else (out, dotdot).

(** The main loop of [path.Clean], on the unread part [path[r:]] of the
    input, the written part [out] of the buffer and [dotdot]. *)
Fixpoint clean_loop (rooted : bool) (p : string) (out : string)
         (dotdot : nat) {struct p} : string :=
  match p with
  | EmptyString => out
  | String c tl =>
      let element :=
        (* real path element: add slash if needed, then copy up to '/' *)
        (fix copy (q : string) (o : string) {struct q} : string :=
           match q with
           | EmptyString => o
           | String d q' =>
               if is_slash d then clean_loop rooted q o dotdot
               else copy q' (o ++ String d EmptyString)
           end) tl (add_slash rooted out ++ String c EmptyString) in
      if is_slash c then
        (* empty path element *)
        clean_loop rooted tl out dotdot
      else if is_dot c && end_or_slash tl then
        (* . element *)
        clean_loop rooted tl out dotdot
      else
        match tl with
        | String d tl2 =>
            if is_dot c && is_dot d && end_or_slash tl2 then
              (* .. element: remove to last / *)
              let '(out', dotdot') := dotdot_step rooted out dotdot in
              clean_loop rooted tl2 out' dotdot'
            else element
        | EmptyString => element
        end
  end.

(** The copy of a real path element, as a function of its own:
    [for ; r < n && path[r] != '/'; r++ { out.append(path[r]) }], followed
    by the rest of the main loop. *)
Definition copy_element (rooted : bool) (dotdot : nat)
  : string -> string -> string :=
  fix copy (q : string) (o : string) {struct q} : string :=
    match q with
    | EmptyString => o
    | String d q' =>
        if is_slash d then clean_loop rooted q o dotdot
        else copy q' (o ++ String d EmptyString)
    end.

(** [path.Clean]. *)
Definition Clean (path : string) : string :=
  match path with
  | EmptyString => "."
  | String c tl =>
      let rooted := is_slash c in
      let out :=
        if rooted then clean_loop true tl "/" 1
        else clean_loop false path "" 0 in
      if String.length out =? 0 then "." else out
  end.

(** The buffer that [path.Join] fills before cleaning it. *)
Fixpoint join_buf (buf : string) (elem : list string) : string :=
  match elem with
  | [] => buf
  | e :: rest =>
      if (0 <? String.length buf) || negb (String.eqb e "") then
        join_buf ((if 0 <? String.length buf then buf ++ "/" else buf) ++ e)
                 rest
      else join_buf buf rest
  end.

(** [path.Join]. *)
Definition Join (elem : list string) : string :=
  let size := fold_left (fun n e => n + String.length e) elem 0 in
  if size =? 0 then "" else Clean (join_buf "" elem).

End GoPath.

Module GoFmt.

(** An operand of [fmt.Sprintf]: the client formats strings and ints only. *)
Inductive arg : Type :=
| VString (s : string)
| VInt (z : Z).

(** [%d] of an int. *)
Definition decimal (z : Z) : string := NilZero.string_of_int (Z.to_int z).

(** One verb applied to one operand. The verbs of [client.go] are [%s],
    [%d] and [%v]; a verb that does not fit its operand prints in Go's
    bad-verb form. *)
Definition format_verb (verb : ascii) (a : arg) : string :=
  match a with
  | VString s =>
      if Ascii.eqb verb "s" || Ascii.eqb verb "v" then s
      else "%!" ++ String verb "(string=" ++ s ++ ")"
  | VInt z =>
      if Ascii.eqb verb "d" || Ascii.eqb verb "v" then decimal z
      else "%!" ++ String verb "(int=" ++ decimal z ++ ")"
  end.

(** [fmt.Sprintf], for formats whose verbs are plain ([%] and one letter). *)
Fixpoint Sprintf (format : string) (args : list arg) : string :=
  match format with
  | EmptyString => ""
  | String c rest =>
      if Ascii.eqb c "%" then
        match rest with
        | String verb rest' =>
            if Ascii.eqb verb "%" then String "%" (Sprintf rest' args)
            else
              match args with
              | a :: args' => format_verb verb a ++ Sprintf rest' args'
              | [] => "%!" ++ String verb "(MISSING)" ++ Sprintf rest' []
              end
        | EmptyString => "%!(NOVERB)"
        end
      else String c (Sprintf rest args)
  end.

End GoFmt.

(* ================================================================== *)
(** * Data model *)
(* ================================================================== *)

Module models.

(** Modelled from the spec: package [pkg/models] (the connection descriptor
    and the two database entities) is not part of [client.go]. The spec
    gives a connection descriptor the host, the port, the credentials and
    the database name. *)
Record DatabaseConfig : Type := {
  Host : string;
  Port : Z;
  Username : string;
  Password : string;
  Database : string
}.

(** Modelled from the spec: a template carries its hash and a connection
    descriptor. *)
Record TemplateDatabase : Type := {
  TemplateHash : string;
  Config : DatabaseConfig
}.

(** Modelled from the spec: a test database carries a numeric identifier
    and a connection descriptor. *)
Record TestDatabase : Type := {
  ID : Z;
  TestConfig : DatabaseConfig
}.

(** Go's zero values, what [var template models.TemplateDatabase] holds. *)
Definition zeroConfig : DatabaseConfig :=
  {| Host := ""; Port := 0; Username := ""; Password := ""; Database := "" |}.
Definition zeroTemplate : TemplateDatabase :=
  {| TemplateHash := ""; Config := zeroConfig |}.
Definition zeroTest : TestDatabase :=
  {| ID := 0; TestConfig := zeroConfig |}.

End models.

(** The libraries whose error values travel through the client untouched. *)
Inductive library : Type :=
| net_http        (* http.Client.Do, http.NewRequestWithContext *)
| encoding_json   (* json.Encoder.Encode, json.Decoder.Decode *)
| database_sql.   (* sql.Open, DB.PingContext *)

(** Go's [error] values as the client meets them: the five package-level
    sentinels (compared by identity, as [err == ErrTemplateAlreadyInitialized]
    does), the values built by [fmt.Errorf] in this file, and the values a
    library hands back. [nil] is [None] of [option error]. *)
Inductive error : Type :=
| ErrManagerNotReady
| ErrTemplateAlreadyInitialized
| ErrTemplateNotFound
| ErrDatabaseDiscarded
| ErrTestNotFound
| Errorf (msg : string)
| LibError (l : library) (msg : string).

(** The message of the sentinels, as given to [errors.New]. *)
Definition Error (e : error) : string :=
  match e with
  | ErrManagerNotReady => "manager not ready"
  | ErrTemplateAlreadyInitialized => "template is already initialized"
  | ErrTemplateNotFound => "template not found"
  | ErrDatabaseDiscarded =>
      "database was discarded (typically failed during initialize/finalize)"
  | ErrTestNotFound => "test database not found"
  | Errorf msg => msg
  | LibError _ msg => msg
  end.

(** The named domain kinds, as opposed to generic and library failures. *)
Definition is_domain_error (e : error) : bool :=
  match e with
  | Errorf _ | LibError _ _ => false
  | _ => true
  end.

Module url.
(** The fields of [net/url.URL] that the client reads or sets. *)
Record URL : Type := { Scheme : string; Host : string; Path : string }.
End url.

Module http.

Definition StatusOK : Z := 200.
Definition StatusAccepted : Z := 202.
Definition StatusNoContent : Z := 204.
Definition StatusNotFound : Z := 404.
Definition StatusGone : Z := 410.
Definition StatusLocked : Z := 423.
Definition StatusServiceUnavailable : Z := 503.

(** A request as [newRequest] leaves it. The header is Go's map from a key
    to its values, kept here as the list of the keys that were set. *)
Record Request : Type := {
  Method : string;
  URL : string;
  Body : option string;
  Header : list (string * string)
}.

(** A completed exchange: status code, status line and the body read from
    the wire. *)
Record Response : Type := {
  StatusCode : Z;
  Status : string;
  RespBody : string
}.

(** [req.Header.Set(key, value)]: the value replaces what the key had. *)
Definition Header_Set (req : Request) (key value : string) : Request :=
  {| Method := Method req;
     URL := URL req;
     Body := Body req;
     Header :=
       (key, value)
         :: filter (fun kv => negb (String.eqb (fst kv) key)) (Header req) |}.

End http.

(** [json.Decoder.Decode] into a destination of type [T]: the value the
    destination holds afterwards (a failed decoding may have written part of
    it) and the message of the decoding error, if any. *)
Class Unmarshal (T : Type) : Type :=
  unmarshal : string -> T -> T * option string.

(** The pointee of a [nil] destination: [c.do(req, nil)] has nothing to
    decode into. *)
Definition no_target : Type := Empty_set.

#[global] Instance Unmarshal_no_target : Unmarshal no_target :=
  fun _ v => match v with end.

(** The value behind the pointer handed to [do], after the call. *)
Definition pointee {T : Type} (v : option T) (before : T) : T :=
  match v with
  | Some t => t
  | None => before
  end.

(* ================================================================== *)
(** * Effects *)
(* ================================================================== *)

(** A computation that threads a state of type [S]. *)
Definition State (S A : Type) : Type := S -> A * S.

Definition ret {S A : Type} (a : A) : State S A := fun s => (a, s).

Definition bind {S A B : Type} (m : State S A) (k : A -> State S B)
  : State S B :=
  fun s => let (a, s') := m s in k a s'.

Notation "x <- m ;; k" := (bind m (fun x => k))
  (at level 61, m at next level, right associativity).
Notation "' pat <- m ;; k" := (bind m (fun x => match x with pat => k end))
  (at level 61, pat pattern, m at next level, right associativity).

(** Go's [defer d] in front of [body]: [d] runs when [body] has returned, and
    the result of [body] is the result of the whole. *)
Definition defer {S A : Type} (d : State S unit) (body : State S A)
  : State S A :=
  a <- body ;; _ <- d ;; ret a.

(* ================================================================== *)
(** * The collaborators of the client *)
(* ================================================================== *)

(** What the client is linked against: the world behind the wire, the
    libraries it calls and the decoders of its three destinations. *)
Class Collaborators : Type := {
  (** The world outside the client: the manager behind the wire and the
      database server. Every exchange may change it. *)
  world : Type;

  (** [*sql.DB], a live database handle. *)
  DB : Type;

  (** Modelled from the spec: [DatabaseConfig.ConnectionString] of
      [pkg/models] is not part of [client.go]; the spec makes it a pure
      function of the descriptor. *)
  ConnectionString : models.DatabaseConfig -> string;

  (** [net/url]: [URL.ResolveReference] and [URL.String]. *)
  ResolveReference : url.URL -> url.URL -> url.URL;
  URL_String : url.URL -> string;

  (** [json.NewEncoder(buf).Encode(body)] of a [map[string]string]: the
      message of the error, or the bytes written. *)
  json_Encode : list (string * string) -> string + string;

  (** [http.NewRequestWithContext(ctx, method, url, body)]. *)
  http_NewRequestWithContext :
    string -> string -> option string -> string + http.Request;

  (** [sql.Open], [DB.PingContext] and [DB.Close] of [database/sql]. *)
  sql_Open : string -> string -> world -> (string + DB) * world;
  DB_PingContext : DB -> world -> option string * world;
  DB_Close : DB -> world -> option string * world;

  (** [json.Decoder.Decode] at the three destinations passed to [do]. *)
  Unmarshal_string :: Unmarshal string;
  Unmarshal_TemplateDatabase :: Unmarshal models.TemplateDatabase;
  Unmarshal_TestDatabase :: Unmarshal models.TestDatabase
}.

(* ================================================================== *)
(** * The client *)
(* ================================================================== *)

Section Client.

Import models.

Context `{Collaborators}.

(** [http.Client.Do]: one exchange, either a transport failure (its
    message) or a completed response. *)
Definition HTTPClient : Type :=
  http.Request -> world -> (string + http.Response) * world.

Record Client : Type := {
  baseURL : url.URL;
  client : HTTPClient
}.

(** [SetClient]. *)
Definition SetClient (c : Client) (cl : HTTPClient) : Client :=
  {| baseURL := baseURL c; client := cl |}.

(** ** Effects

    A call runs in a state made of the outside world and of the trace of
    what the client asked of its collaborators, in order. *)

Inductive Event : Type :=
| EvDo (req : http.Request)           (* c.client.Do(req) *)
| EvBodyClose                         (* resp.Body.Close() *)
| EvPopulate (conn : string)          (* init(conn) *)
| EvOpen (driver dsn : string)        (* sql.Open(driver, dsn) *)
| EvPing (db : DB)                    (* db.PingContext(ctx) *)
| EvPopulateDB (db : DB)              (* init(db) *)
| EvClose (db : DB).                  (* db.Close() *)

Record St : Type := { env : world; trace : list Event }.

Definition M (A : Type) : Type := State St A.

(** A call to a collaborator: it is recorded, then it acts on the world. *)
Definition call {A : Type} (ev : Event) (f : world -> A * world) : M A :=
  fun s =>
    let (a, w) := f (env s) in
    (a, {| env := w; trace := (trace s ++ [ev])%list |}).

(** A call whose effect on the world this model does not follow. *)
Definition emit (ev : Event) : M unit :=
  fun s => (tt, {| env := env s; trace := (trace s ++ [ev])%list |}).

(** The callbacks of the caller act on the world, like any collaborator. *)
Definition populate_fn : Type := string -> world -> option error * world.
Definition populate_db_fn : Type := DB -> world -> option error * world.

(** ** Requests *)

(** The path handed to [ResolveReference]:
    [path.Join(c.baseURL.Path, endpoint)]. *)
Definition endpointPath (c : Client) (endpoint : string) : string :=
  GoPath.Join [url.Path (baseURL c); endpoint].

(** [newRequest]. The context only carries cancellation, which belongs to
    the transport; it is left out. *)
Definition newRequest (c : Client) (method endpoint : string)
           (body : option (list (string * string))) : error + http.Request :=
  let u :=
    ResolveReference (baseURL c)
      {| url.Scheme := ""; url.Host := "";
         url.Path := endpointPath c endpoint |} in
  let buf : error + option string :=
    match body with
    | Some b =>
        match json_Encode b with
        | inl m => inl (LibError encoding_json m)
        | inr bytes => inr (Some bytes)
        end
    | None => inr None
    end in
  match buf with
  | inl err => inl err
  | inr buf =>
      match http_NewRequestWithContext method (URL_String u) buf with
      | inl m => inl (LibError net_http m)
      | inr req =>
          let req :=
            match body with
            | Some _ =>
                http.Header_Set req "Content-Type"
                                "application/json; charset=UTF-8"
            | None => req
            end in
          inr (http.Header_Set req "Accept" "application/json")
      end
  end.

(** [do]: the exchange, then the decoding of the body into [v] unless the
    status is 202 or 204 or [v] is nil. The second component is what [v]
    points to after the call. *)
Definition do {T : Type} `{Unmarshal T} (c : Client) (req : http.Request)
           (v : option T) : M ((error + http.Response) * option T) :=
  r <- call (EvDo req) (client c req) ;;
  match r with
  | inl m => ret (inl (LibError net_http m), v)
  | inr resp =>
      (* body must always be closed *)
      defer (emit EvBodyClose)
        (if (http.StatusCode resp =? http.StatusAccepted)%Z
            || (http.StatusCode resp =? http.StatusNoContent)%Z
         then ret (inr resp, v)
         else
           match v with
           | None => ret (inr resp, v)
           | Some dst =>
               let (dst', derr) := unmarshal (http.RespBody resp) dst in
               match derr with
               | Some m => ret (inl (LibError encoding_json m), Some dst')
               | None => ret (inr resp, Some dst')
               end
           end)
  end.

(** The [default] branch of every status switch. *)
Definition unexpectedStatus (resp : http.Response) : error :=
  Errorf (GoFmt.Sprintf "received unexpected HTTP status %d (%s)"
            [GoFmt.VInt (http.StatusCode resp);
             GoFmt.VString (http.Status resp)]).

(** ** Operations *)

Definition ResetAllTracking (c : Client) : M (option error) :=
  match newRequest c "DELETE" "/admin/templates" None with
  | inl err => ret (Some err)
  | inr req =>
      '(r, v) <- do c req (Some "") ;;
      let msg := pointee v "" in
      match r with
      | inl err => ret (Some err)
      | inr resp =>
          if negb (http.StatusCode resp =? http.StatusNoContent)%Z then
            ret (Some (Errorf (GoFmt.Sprintf "failed to reset all tracking: %v"
                                 [GoFmt.VString msg])))
          else ret None
      end
  end.

Definition InitializeTemplate (c : Client) (hash : string)
  : M (TemplateDatabase * option error) :=
  let payload := [("hash", hash)] in
  match newRequest c "POST" "/templates" (Some payload) with
  | inl err => ret (zeroTemplate, Some err)
  | inr req =>
      '(r, v) <- do c req (Some zeroTemplate) ;;
      let template := pointee v zeroTemplate in
      match r with
      | inl err => ret (template, Some err)
      | inr resp =>
          if (http.StatusCode resp =? http.StatusOK)%Z then
            ret (template, None)
          else if (http.StatusCode resp =? http.StatusLocked)%Z then
            ret (template, Some ErrTemplateAlreadyInitialized)
          else if (http.StatusCode resp =? http.StatusServiceUnavailable)%Z
          then ret (template, Some ErrManagerNotReady)
          else ret (template, Some (unexpectedStatus resp))
      end
  end.

Definition DiscardTemplate (c : Client) (hash : string) : M (option error) :=
  match newRequest c "DELETE"
          (GoFmt.Sprintf "/templates/%s" [GoFmt.VString hash]) None with
  | inl err => ret (Some err)
  | inr req =>
      '(r, _) <- do c req (@None no_target) ;;
      match r with
      | inl err => ret (Some err)
      | inr resp =>
          if (http.StatusCode resp =? http.StatusNoContent)%Z then ret None
          else if (http.StatusCode resp =? http.StatusNotFound)%Z then
            ret (Some ErrTemplateNotFound)
          else if (http.StatusCode resp =? http.StatusServiceUnavailable)%Z
          then ret (Some ErrManagerNotReady)
          else ret (Some (unexpectedStatus resp))
      end
  end.

Definition FinalizeTemplate (c : Client) (hash : string) : M (option error) :=
  match newRequest c "PUT"
          (GoFmt.Sprintf "/templates/%s" [GoFmt.VString hash]) None with
  | inl err => ret (Some err)
  | inr req =>
      '(r, _) <- do c req (@None no_target) ;;
      match r with
      | inl err => ret (Some err)
      | inr resp =>
          if (http.StatusCode resp =? http.StatusNoContent)%Z then ret None
          else if (http.StatusCode resp =? http.StatusNotFound)%Z then
            ret (Some ErrTemplateNotFound)
          else if (http.StatusCode resp =? http.StatusServiceUnavailable)%Z
          then ret (Some ErrManagerNotReady)
          else ret (Some (unexpectedStatus resp))
      end
  end.

Definition GetTestDatabase (c : Client) (hash : string)
  : M (TestDatabase * option error) :=
  match newRequest c "GET"
          (GoFmt.Sprintf "/templates/%s/tests" [GoFmt.VString hash]) None with
  | inl err => ret (zeroTest, Some err)
  | inr req =>
      '(r, v) <- do c req (Some zeroTest) ;;
      let test := pointee v zeroTest in
      match r with
      | inl err => ret (test, Some err)
      | inr resp =>
          if (http.StatusCode resp =? http.StatusOK)%Z then ret (test, None)
          else if (http.StatusCode resp =? http.StatusNotFound)%Z then
            ret (test, Some ErrTemplateNotFound)
          else if (http.StatusCode resp =? http.StatusGone)%Z then
            ret (test, Some ErrDatabaseDiscarded)
          else if (http.StatusCode resp =? http.StatusServiceUnavailable)%Z
          then ret (test, Some ErrManagerNotReady)
          else ret (test, Some (unexpectedStatus resp))
      end
  end.

Definition ReturnTestDatabase (c : Client) (hash : string) (id : Z)
  : M (option error) :=
  match newRequest c "DELETE"
          (GoFmt.Sprintf "/templates/%s/tests/%d"
             [GoFmt.VString hash; GoFmt.VInt id]) None with
  | inl err => ret (Some err)
  | inr req =>
      '(r, _) <- do c req (@None no_target) ;;
      match r with
      | inl err => ret (Some err)
      | inr resp =>
          if (http.StatusCode resp =? http.StatusNoContent)%Z then ret None
          else if (http.StatusCode resp =? http.StatusNotFound)%Z then
            ret (Some ErrTemplateNotFound)
          else if (http.StatusCode resp =? http.StatusServiceUnavailable)%Z
          then ret (Some ErrManagerNotReady)
          else ret (Some (unexpectedStatus resp))
      end
  end.

Definition SetupTemplate (c : Client) (hash : string) (init : populate_fn)
  : M (option error) :=
  '(template, err) <- InitializeTemplate c hash ;;
  match err with
  | None =>
      let conn := ConnectionString (Config template) in
      perr <- call (EvPopulate conn) (init conn) ;;
      match perr with
      | Some err => ret (Some err)
      | None => FinalizeTemplate c hash
      end
  | Some ErrTemplateAlreadyInitialized => ret None
  | Some err => ret (Some err)
  end.

Definition SetupTemplateWithDBClient (c : Client) (hash : string)
           (init : populate_db_fn) : M (option error) :=
  '(template, err) <- InitializeTemplate c hash ;;
  match err with
  | None =>
      let dsn := ConnectionString (Config template) in
      r <- call (EvOpen "postgres" dsn) (sql_Open "postgres" dsn) ;;
      match r with
      | inl m => ret (Some (LibError database_sql m))
      | inr db =>
          defer (_ <- call (EvClose db) (DB_Close db) ;; ret tt)
            (perr <- call (EvPing db) (DB_PingContext db) ;;
             match perr with
             | Some m => ret (Some (LibError database_sql m))
             | None =>
                 ierr <- call (EvPopulateDB db) (init db) ;;
                 match ierr with
                 | Some err => ret (Some err)
                 | None => FinalizeTemplate c hash
                 end
             end)
      end
  | Some ErrTemplateAlreadyInitialized => ret None
  | Some err => ret (Some err)
  end.

End Client.

Arguments EvDo {_} req.
Arguments EvBodyClose {_}.
Arguments EvPopulate {_} conn.
Arguments EvOpen {_} driver dsn.
Arguments EvPing {_} db.
Arguments EvPopulateDB {_} db.
Arguments EvClose {_} db.

(** The state after a call that was recorded as [ev] and left the world as
    [w]. *)
Definition recorded `{Collaborators} (s : St) (ev : Event) (w : world) : St :=
  {| env := w; trace := (trace s ++ [ev])%list |}.

(** The state after a completed exchange: the request went out, the world
    became [w], the body was closed. *)
Definition after_exchange `{Collaborators} (s : St) (req : http.Request)
           (w : world) : St :=
  {| env := w; trace := (trace s ++ [EvDo req; EvBodyClose])%list |}.

(** The state after [db.Close()]. *)
Definition after_close `{Collaborators} (s : St) (db : DB) : St :=
  recorded s (EvClose db) (snd (DB_Close db (env s))).

(** The two statuses whose body [do] does not read. *)
Definition bodyless (resp : http.Response) : Prop :=
  http.StatusCode resp = http.StatusAccepted
  \/ http.StatusCode resp = http.StatusNoContent.

(** The message of the [default] branch of a status switch. *)
Definition unexpected_message (resp : http.Response) : string :=
  "received unexpected HTTP status " ++ GoFmt.decimal (http.StatusCode resp)
    ++ " (" ++ http.Status resp ++ ")".

(** The number of [db.Close()] calls in a trace. *)
Definition closes `{Collaborators} (tr : list Event) : nat :=
  List.length (filter (fun ev => match ev with EvClose _ => true | _ => false end)
                      tr).

(* ================================================================== *)
(** * A scripted manager, for examples *)
(* ================================================================== *)

Module Fake.

Import models.

(** The double quote. *)
Definition quote : ascii := ascii_of_nat 34.

(** A JSON string literal of a text without quotes or backslashes. *)
Definition jstr (s : string) : string := String quote (s ++ String quote "").

(** The outside world of the examples: the answers that the transport will
    give, in order, what the database server answers to [Open] and to
    [PingContext], and counters of what has been done to it. *)
Record World : Type := {
  script : list (string + http.Response);
  open_answer : string + nat;
  ping_answer : option string;
  populated : nat;
  closed : nat
}.

(** The transport: the next answer of the script; a refused connection
    when the script is over. *)
Definition roundTrip (req : http.Request) (w : World)
  : (string + http.Response) * World :=
  match script w with
  | [] => (inl "connection refused", w)
  | a :: rest =>
      (a, {| script := rest; open_answer := open_answer w;
             ping_answer := ping_answer w; populated := populated w;
             closed := closed w |})
  end.

Definition Open (driver dsn : string) (w : World) : (string + nat) * World :=
  (open_answer w, w).

Definition PingContext (db : nat) (w : World) : option string * World :=
  (ping_answer w, w).

Definition Close (db : nat) (w : World) : option string * World :=
  (None, {| script := script w; open_answer := open_answer w;
            ping_answer := ping_answer w; populated := populated w;
            closed := S (closed w) |}).

(** The text of a body that is one JSON string literal, if it is one. *)
Fixpoint literal_text (s acc : string) : option string :=
  match s with
  | EmptyString => None
  | String c rest =>
      if Ascii.eqb c quote then
        match rest with
        | EmptyString => Some acc
        | _ => None
        end
      else if Ascii.eqb c (ascii_of_nat 92) then None
      else literal_text rest (acc ++ String c "")
  end.

(** Decoding into a [string]: a string literal gives its text, anything
    else is refused and leaves the destination as it was. *)
Definition decode_string : Unmarshal string :=
  fun body dst =>
    match body with
    | String c rest =>
        if Ascii.eqb c quote then
          match literal_text rest "" with
          | Some text => (text, None)
          | None => (dst, Some "invalid character in string literal")
          end
        else (dst, Some "json: cannot unmarshal into Go value of type string")
    | EmptyString => (dst, Some "EOF")
    end.

(** The descriptor that the manager of the examples hands out. *)
Definition config_abc : DatabaseConfig :=
  {| Host := "db"; Port := 5432; Username := "dbuser"; Password := "dbpass";
     Database := "integresql_template_abc" |}.

Definition template_abc : TemplateDatabase :=
  {| TemplateHash := "abc"; Config := config_abc |}.

Definition test_abc : TestDatabase :=
  {| ID := 1;
     TestConfig :=
       {| Host := "db"; Port := 5432; Username := "dbuser";
          Password := "dbpass"; Database := "integresql_test_abc_001" |} |}.

Definition body_config (database : string) : string :=
  "{" ++ jstr "host" ++ ":" ++ jstr "db" ++ "," ++ jstr "port" ++ ":5432,"
      ++ jstr "username" ++ ":" ++ jstr "dbuser" ++ ","
      ++ jstr "password" ++ ":" ++ jstr "dbpass" ++ ","
      ++ jstr "database" ++ ":" ++ jstr database ++ "}".

Definition body_template_abc : string :=
  "{" ++ jstr "database" ++ ":{" ++ jstr "templateHash" ++ ":" ++ jstr "abc"
      ++ "," ++ jstr "config" ++ ":" ++ body_config "integresql_template_abc"
      ++ "}}".

Definition body_test_abc : string :=
  "{" ++ jstr "id" ++ ":1," ++ jstr "database" ++ ":{"
      ++ jstr "templateHash" ++ ":" ++ jstr "abc"
      ++ "," ++ jstr "config" ++ ":" ++ body_config "integresql_test_abc_001"
      ++ "}}".

(** The error body of the manager: an object with a message, none of whose
    fields belongs to a database entity. *)
Definition body_message (msg : string) : string :=
  "{" ++ jstr "message" ++ ":" ++ jstr msg ++ "}".

(** A body that is not JSON, as a proxy in front of the manager sends. *)
Definition body_html : string := "<html>Bad Gateway</html>".

Definition is_message (body : string) : bool :=
  String.prefix ("{" ++ jstr "message" ++ ":") body.

(** Decoding into the entities, on the bodies of the examples: the two
    fixtures give their entity, an empty object and an error object leave
    the destination as it was, anything else is refused. *)
Definition decode_template : Unmarshal TemplateDatabase :=
  fun body dst =>
    if String.eqb body body_template_abc then (template_abc, None)
    else if String.eqb body "{}" || is_message body then (dst, None)
    else (dst, Some "invalid character '<' looking for beginning of value").

Definition decode_test : Unmarshal TestDatabase :=
  fun body dst =>
    if String.eqb body body_test_abc then (test_abc, None)
    else if String.eqb body "{}" || is_message body then (dst, None)
    else (dst, Some "invalid character '<' looking for beginning of value").

(** A reference that is a rooted path replaces the path of the base. *)
Definition resolve (base ref : url.URL) : url.URL :=
  {| url.Scheme := url.Scheme base; url.Host := url.Host base;
     url.Path := url.Path ref |}.

Definition render (u : url.URL) : string :=
  url.Scheme u ++ "://" ++ url.Host u ++ url.Path u.

(** The encoding of a one-level object of plain strings. *)
Fixpoint fields (kvs : list (string * string)) : string :=
  match kvs with
  | [] => ""
  | [(k, v)] => jstr k ++ ":" ++ jstr v
  | (k, v) :: rest => jstr k ++ ":" ++ jstr v ++ "," ++ fields rest
  end.

Definition encode (kvs : list (string * string)) : string + string :=
  inr ("{" ++ fields kvs ++ "}" ++ String (ascii_of_nat 10) "").

Definition request (method target : string) (body : option string)
  : string + http.Request :=
  inr {| http.Method := method; http.URL := target; http.Body := body;
         http.Header := [] |}.

Definition connection (cfg : DatabaseConfig) : string :=
  "host=" ++ Host cfg ++ " port=" ++ GoFmt.decimal (Port cfg)
          ++ " user=" ++ Username cfg ++ " password=" ++ Password cfg
          ++ " dbname=" ++ Database cfg ++ " sslmode=disable".

#[local] Instance collaborators : Collaborators := {|
  world := World;
  DB := nat;
  ConnectionString := connection;
  ResolveReference := resolve;
  URL_String := render;
  json_Encode := encode;
  http_NewRequestWithContext := request;
  sql_Open := Open;
  DB_PingContext := PingContext;
  DB_Close := Close;
  Unmarshal_string := decode_string;
  Unmarshal_TemplateDatabase := decode_template;
  Unmarshal_TestDatabase := decode_test
|}.

(** The client of the examples, at [http://manager:5000/api/v1]. *)
Definition c : Client :=
  {| baseURL := {| url.Scheme := "http"; url.Host := "manager:5000";
                   url.Path := "/api/v1" |};
     client := roundTrip |}.

Definition response (code : Z) (status body : string) : http.Response :=
  {| http.StatusCode := code; http.Status := status; http.RespBody := body |}.

(** A world whose manager gives the scripted answers and whose database
    server is up. *)
Definition manager (answers : list (string + http.Response)) : World :=
  {| script := answers; open_answer := inr 1; ping_answer := None;
     populated := 0; closed := 0 |}.

Definition start (w : World) : St := {| env := w; trace := [] |}.

(** A population step that succeeds, and one that fails with [e]. *)
Definition populate_ok : populate_fn :=
  fun _ w => (None, {| script := script w; open_answer := open_answer w;
                       ping_answer := ping_answer w;
                       populated := S (populated w); closed := closed w |}).

Definition populate_failing (e : error) : populate_fn :=
  fun _ w => (Some e, {| script := script w; open_answer := open_answer w;
                         ping_answer := ping_answer w;
                         populated := S (populated w); closed := closed w |}).

Definition populate_db_ok : populate_db_fn :=
  fun _ w => (None, {| script := script w; open_answer := open_answer w;
                       ping_answer := ping_answer w;
                       populated := S (populated w); closed := closed w |}).

(** The answers of the examples. *)
Definition ok_template : http.Response :=
  response 200 "200 OK" body_template_abc.
Definition ok_test : http.Response := response 200 "200 OK" body_test_abc.
Definition no_content : http.Response := response 204 "204 No Content" "".
Definition no_content_boom : http.Response :=
  response 204 "204 No Content" (jstr "boom").
Definition accepted_boom : http.Response :=
  response 202 "202 Accepted" (jstr "boom").
Definition failed_boom : http.Response :=
  response 500 "500 Internal Server Error" (jstr "boom").
Definition locked : http.Response :=
  response 423 "423 Locked" (body_message "template is already initialized").
Definition locked_html : http.Response :=
  response 423 "423 Locked" body_html.
Definition not_found : http.Response :=
  response 404 "404 Not Found" (body_message "template not found").
Definition not_found_html : http.Response :=
  response 404 "404 Not Found" body_html.

(** The state in which the manager is about to give these answers. *)
Definition answering (answers : list http.Response) : St :=
  start (manager (map inr answers)).

End Fake.

(* ================================================================== *)
(** * Observations on requests, paths and traces *)
(* ================================================================== *)

(** [req.Header[key]], the entry of the header map of a request: the value
    set for exactly this key, the empty string when there is none. *)
Definition Header_Get (req : http.Request) (key : string) : string :=
  match find (fun kv => String.eqb (fst kv) key) (http.Header req) with
  | Some kv => snd kv
  | None => ""
  end.

(** A string without the byte [c]. *)
Fixpoint lacks (c : ascii) (s : string) : bool :=
  match s with
  | EmptyString => true
  | String d rest => negb (Ascii.eqb d c) && lacks c rest
  end.

(** A string without a slash. *)
Fixpoint no_slash (s : string) : bool :=
  match s with
  | EmptyString => true
  | String c rest => negb (GoPath.is_slash c) && no_slash rest
  end.

(** A hash that is one path element of its own: not empty, without a
    slash, and neither [.] nor [..]. *)
Definition plain_segment (h : string) : bool :=
  negb (String.eqb h "") && negb (String.eqb h ".")
  && negb (String.eqb h "..") && no_slash h.

(** What the loop of [path.Clean] keeps true of its buffer: [dotdot] points
    into what is written, and past the leading slash of a rooted path. *)
Definition loop_state_ok (rooted : bool) (out : string) (dotdot : nat)
  : Prop :=
  dotdot <= String.length out /\ (rooted = true -> 1 <= dotdot).

(** The exchanges, the closed bodies and the populate steps of a trace. *)
Definition exchanges `{Collaborators} (tr : list Event) : nat :=
  List.length (filter (fun ev => match ev with EvDo _ => true | _ => false end)
                      tr).

Definition body_closes `{Collaborators} (tr : list Event) : nat :=
  List.length
    (filter (fun ev => match ev with EvBodyClose => true | _ => false end) tr).

Definition populates `{Collaborators} (tr : list Event) : nat :=
  List.length
    (filter (fun ev => match ev with
                       | EvPopulate _ | EvPopulateDB _ => true
                       | _ => false
                       end) tr).

(** The events of one exchange from the world [w]: the request, and the
    closing of the body when the transport answers. *)
Definition exchange_events `{Collaborators} (c : Client) (req : http.Request)
           (w : world) : list Event :=
  EvDo req :: match fst (client c req w) with
              | inr _ => [EvBodyClose]
              | inl _ => []
              end.

(** The events of an operation whose request building gave [r]. *)
Definition operation_events `{Collaborators} (c : Client)
           (r : error + http.Request) (w : world) : list Event :=
  match r with
  | inr req => exchange_events c req w
  | inl _ => []
  end.

(** The world after an operation whose request building gave [r]. *)
Definition operation_world `{Collaborators} (c : Client)
           (r : error + http.Request) (w : world) : world :=
  match r with
  | inr req => snd (client c req w)
  | inl _ => w
  end.

Module Broken.

(** Collaborators like those of the examples, except that no request can
    be made: [http.NewRequestWithContext] refuses, as it does for a nil
    context. *)
Definition request (method target : string) (body : option string)
  : string + http.Request :=
  inl "net/http: nil Context".

#[local] Instance collaborators : Collaborators := {|
  world := Fake.World;
  DB := nat;
  ConnectionString := Fake.connection;
  ResolveReference := Fake.resolve;
  URL_String := Fake.render;
  json_Encode := Fake.encode;
  http_NewRequestWithContext := request;
  sql_Open := Fake.Open;
  DB_PingContext := Fake.PingContext;
  DB_Close := Fake.Close;
  Unmarshal_string := Fake.decode_string;
  Unmarshal_TemplateDatabase := Fake.decode_template;
  Unmarshal_TestDatabase := Fake.decode_test
|}.

Definition c : Client :=
  {| baseURL := {| url.Scheme := "http"; url.Host := "manager:5000";
                   url.Path := "/api/v1" |};
     client := Fake.roundTrip |}.

Definition start : St := {| env := Fake.manager []; trace := [] |}.

End Broken.

Module Outage.

(** The state of the examples when the manager cannot be reached, and the
    world in which the database server refuses to open a handle. *)
Definition unreachable : St := Fake.start (Fake.manager []).

Definition no_database (answers : list http.Response) : St :=
  Fake.start
    {| Fake.script := map inr answers;
       Fake.open_answer := inl "sql: unknown driver";
       Fake.ping_answer := None; Fake.populated := 0; Fake.closed := 0 |}.

(** A locked answer whose body is a template all the same. *)
Definition locked_with_template : http.Response :=
  Fake.response 423 "423 Locked" Fake.body_template_abc.

(** Two answers that differ by their status code only. *)
Definition failed_500 : http.Response := Fake.response 500 "Server Error" "".
Definition failed_502 : http.Response := Fake.response 502 "Server Error" "".

End Outage.

(* ================================================================== *)
(** * Properties of the path functions *)
(* ================================================================== *)

Module GoPathFacts.

Import GoPath.

Lemma append_nil_r (s : string) : s ++ "" = s.
Proof. induction s as [|c s IH]; simpl; [reflexivity | now rewrite IH]. Qed.

Lemma append_cons (c : ascii) (s t : string) :
  String c s ++ t = String c (s ++ t).
Proof. reflexivity. Qed.

Lemma append_assoc (s1 s2 s3 : string) : (s1 ++ s2) ++ s3 = s1 ++ (s2 ++ s3).
Proof. induction s1 as [|c s1 IH]; simpl; [reflexivity | now rewrite IH]. Qed.

(** One turn of the main loop, with the copy of an element named. *)
Lemma clean_loop_step (rooted : bool) (c : ascii) (tl out : string)
      (dotdot : nat) :
  clean_loop rooted (String c tl) out dotdot =
  let element :=
    copy_element rooted dotdot tl (add_slash rooted out ++ String c "") in
  if is_slash c then clean_loop rooted tl out dotdot
  else if is_dot c && end_or_slash tl then clean_loop rooted tl out dotdot
  else
    match tl with
    | String d tl2 =>
        if is_dot c && is_dot d && end_or_slash tl2 then
          let '(out', dotdot') := dotdot_step rooted out dotdot in
          clean_loop rooted tl2 out' dotdot'
        else element
    | EmptyString => element
    end.
Proof. reflexivity. Qed.

Lemma copy_element_cons (rooted : bool) (dotdot : nat) (d : ascii)
      (q o : string) :
  copy_element rooted dotdot (String d q) o =
  if is_slash d then clean_loop rooted (String d q) o dotdot
  else copy_element rooted dotdot q (o ++ String d "").
Proof. reflexivity. Qed.

(** What follows a prefix that a slash ends does not decide how the prefix
    is read. *)
Lemma end_or_slash_prefix (b t : string) :
  end_or_slash (b ++ String "/" t) = end_or_slash (b ++ "/").
Proof. destruct b; reflexivity. Qed.

(** The copy of an element stops in the prefix or at the slash that ends
    it, whatever follows. *)
Lemma copy_element_prefix (rooted : bool) (dotdot : nat) (b : string) :
  forall o : string,
  exists (b' o' : string),
    String.length b' <= String.length b /\
    forall t : string,
      copy_element rooted dotdot (b ++ String "/" t) o =
      clean_loop rooted (b' ++ String "/" t) o' dotdot.
Proof.
  induction b as [|d b IH]; intro o.
  - exists "", o. split; [apply le_n | intro t; reflexivity].
  - destruct (is_slash d) eqn:Hd.
    + exists (String d b), o. split; [apply le_n |].
      intro t. simpl append. rewrite copy_element_cons, Hd. reflexivity.
    + destruct (IH (o ++ String d "")) as (b' & o' & Hlen & Heq).
      exists b', o'. split; [simpl; lia |].
      intro t. simpl append. rewrite copy_element_cons, Hd. apply Heq.
Qed.

(** Reading a prefix and the slash after it leaves the loop in a state
    that depends on the prefix alone. *)
Lemma clean_loop_prefix (n : nat) :
  forall (b : string), String.length b <= n ->
  forall (rooted : bool) (out : string) (dotdot : nat),
  exists (out' : string) (dotdot' : nat),
    forall t : string,
      clean_loop rooted (b ++ String "/" t) out dotdot =
      clean_loop rooted t out' dotdot'.
Proof.
  induction n as [|n IH]; intros b Hb rooted out dotdot.
  - destruct b; [|simpl in Hb; lia].
    exists out, dotdot. intro t. reflexivity.
  - destruct b as [|c b].
    { exists out, dotdot. intro t. reflexivity. }
    simpl in Hb. apply le_S_n in Hb.
    destruct (is_slash c) eqn:Hc.
    { destruct (IH b Hb rooted out dotdot) as (o' & d' & H').
      exists o', d'. intro t.
      rewrite append_cons, clean_loop_step. cbv zeta.
      rewrite Hc. apply H'. }
    assert (Helement :
      exists o' d', forall t,
        copy_element rooted dotdot (b ++ String "/" t)
          (add_slash rooted out ++ String c "") =
        clean_loop rooted t o' d').
    { destruct (copy_element_prefix rooted dotdot b
                  (add_slash rooted out ++ String c ""))
        as (b' & o1 & Hlen & Hcopy).
      destruct (IH b' (Nat.le_trans _ _ _ Hlen Hb) rooted o1 dotdot)
        as (o' & d' & H').
      exists o', d'. intro t. rewrite Hcopy. apply H'. }
    destruct (is_dot c && end_or_slash (b ++ "/")) eqn:Hdot.
    { destruct (IH b Hb rooted out dotdot) as (o' & d' & H').
      exists o', d'. intro t.
      rewrite append_cons, clean_loop_step. cbv zeta.
      rewrite Hc, end_or_slash_prefix, Hdot. apply H'. }
    destruct b as [|d b2].
    { destruct Helement as (o' & d' & H').
      exists o', d'. intro t.
      rewrite append_cons, clean_loop_step. cbv zeta.
      rewrite Hc, end_or_slash_prefix, Hdot.
      cbn [append]. change (is_dot "/") with false.
      rewrite andb_false_r. cbn [andb]. exact (H' t). }
    destruct (is_dot c && is_dot d && end_or_slash (b2 ++ "/")) eqn:Hdd.
    { destruct (dotdot_step rooted out dotdot) as [o1 d1] eqn:Hstep.
      assert (Hb2 : String.length b2 <= n) by (simpl in Hb; lia).
      destruct (IH b2 Hb2 rooted o1 d1) as (o' & d' & H').
      exists o', d'. intro t.
      rewrite append_cons, clean_loop_step. cbv zeta.
      rewrite Hc, end_or_slash_prefix, Hdot.
      rewrite append_cons. cbv iota.
      rewrite end_or_slash_prefix, Hdd, Hstep. apply H'. }
    { destruct Helement as (o' & d' & H').
      exists o', d'. intro t.
      rewrite append_cons, clean_loop_step. cbv zeta.
      rewrite Hc, end_or_slash_prefix, Hdot.
      rewrite append_cons. cbv iota.
      rewrite end_or_slash_prefix, Hdd.
      rewrite <- append_cons. apply (H' t). }
Qed.

(** [path.Clean] of two paths that share a non-empty prefix and the slash
    after it, when the loop reads their ends alike. *)
Lemma Clean_prefix_agree (b t1 t2 : string) :
  b <> "" ->
  (forall rooted out dotdot,
      clean_loop rooted t1 out dotdot = clean_loop rooted t2 out dotdot) ->
  Clean (b ++ String "/" t1) = Clean (b ++ String "/" t2).
Proof.
  intros Hb Hends. destruct b as [|c b]; [contradiction|].
  rewrite !append_cons. unfold Clean.
  destruct (is_slash c).
  - destruct (clean_loop_prefix (String.length b) b (le_n _) true "/" 1)
      as (o' & d' & H').
    now rewrite !H', Hends.
  - rewrite <- !append_cons.
    destruct (clean_loop_prefix (String.length (String c b)) (String c b)
                                (le_n _) false "" 0)
      as (o' & d' & H').
    now rewrite !H', Hends.
Qed.

(** [path.Join] of a base and of an endpoint that is not empty. *)
Lemma Join_base (p e : string) :
  e <> "" ->
  Join [p; e] = if String.eqb p "" then Clean e else Clean (p ++ String "/" e).
Proof.
  intro He. destruct e as [|c e]; [contradiction|].
  unfold Join. cbn [fold_left String.length].
  rewrite Nat.add_succ_r. cbn [Nat.eqb].
  destruct p as [|d p]; [reflexivity|].
  cbn [join_buf String.length Nat.ltb Nat.leb orb String.eqb negb].
  change ("" ++ String d p) with (String d p).
  cbn [String.length orb]. rewrite append_assoc. reflexivity.
Qed.

(** Two endpoints that the loop reads alike join alike to every base. *)
Lemma Join_endpoints_agree (p e1 e2 : string) :
  e1 <> "" -> e2 <> "" ->
  (forall rooted out dotdot,
      clean_loop rooted e1 out dotdot = clean_loop rooted e2 out dotdot) ->
  Clean e1 = Clean e2 ->
  Join [p; e1] = Join [p; e2].
Proof.
  intros H1 H2 Hends Hclean. rewrite !Join_base by assumption.
  destruct (String.eqb_spec p "") as [-> | Hp]; [exact Hclean|].
  now apply Clean_prefix_agree.
Qed.

(** A slash at the end of an endpoint is an empty element. *)
Lemma templates_trailing_slash (rooted : bool) (out : string) (dotdot : nat) :
  clean_loop rooted "/templates/" out dotdot
  = clean_loop rooted "/templates" out dotdot.
Proof. reflexivity. Qed.

(** So is what two slashes in a row enclose. *)
Lemma templates_tests_empty_segment (rooted : bool) (out : string)
      (dotdot : nat) :
  clean_loop rooted "/templates//tests" out dotdot
  = clean_loop rooted "/templates/tests" out dotdot.
Proof. reflexivity. Qed.

End GoPathFacts.

(* ================================================================== *)
(** * Properties of the codec *)
(* ================================================================== *)

Section CodecFacts.

Context `{Collaborators}.

Lemma closes_app (tr1 tr2 : list Event) :
  closes (tr1 ++ tr2) = closes tr1 + closes tr2.
Proof. unfold closes. now rewrite filter_app, length_app. Qed.

Lemma state_eta (s : St) : {| env := env s; trace := trace s |} = s.
Proof. destruct s; reflexivity. Qed.

Lemma bodyless_dec (resp : http.Response) :
  ((http.StatusCode resp =? http.StatusAccepted)%Z
   || (http.StatusCode resp =? http.StatusNoContent)%Z) = true
  <-> bodyless resp.
Proof.
  unfold bodyless. rewrite orb_true_iff, !Z.eqb_eq. reflexivity.
Qed.

Lemma not_bodyless_dec (resp : http.Response) :
  ~ bodyless resp ->
  ((http.StatusCode resp =? http.StatusAccepted)%Z
   || (http.StatusCode resp =? http.StatusNoContent)%Z) = false.
Proof.
  intro Hn. apply not_true_is_false. intro Hb. apply Hn.
  now apply bodyless_dec.
Qed.

Lemma bodyless_cases (resp : http.Response) :
  bodyless resp \/ ~ bodyless resp.
Proof.
  unfold bodyless.
  destruct (Z.eq_dec (http.StatusCode resp) http.StatusAccepted);
    destruct (Z.eq_dec (http.StatusCode resp) http.StatusNoContent); tauto.
Qed.

(** A transport failure comes back as it is; nothing is decoded. *)
Lemma do_transport_failure {T : Type} `{Unmarshal T} (c : Client)
      (req : http.Request) (v : option T) (s : St) (m : string)
      (w' : world) :
  client c req (env s) = (inl m, w') ->
  do c req v s = ((inl (LibError net_http m), v), recorded s (EvDo req) w').
Proof.
  intro Hdo. unfold do, bind, call. rewrite Hdo. reflexivity.
Qed.

(** A completed exchange whose body is not read. *)
Lemma do_skips {T : Type} `{Unmarshal T} (c : Client) (req : http.Request)
      (v : option T) (s : St) (resp : http.Response) (w' : world) :
  client c req (env s) = (inr resp, w') ->
  bodyless resp \/ v = None ->
  do c req v s = ((inr resp, v), after_exchange s req w').
Proof.
  intros Hdo Hskip.
  unfold do, bind, call, defer, emit, ret, after_exchange.
  rewrite Hdo. cbn [env trace bind].
  destruct ((http.StatusCode resp =? http.StatusAccepted)%Z
            || (http.StatusCode resp =? http.StatusNoContent)%Z) eqn:Hb.
  - unfold bind. cbn. now rewrite <- app_assoc.
  - destruct Hskip as [Hbl | ->].
    + apply bodyless_dec in Hbl. congruence.
    + unfold bind. cbn. now rewrite <- app_assoc.
Qed.

(** A completed exchange whose body is decoded into the destination. *)
Lemma do_decodes {T : Type} `{Unmarshal T} (c : Client) (req : http.Request)
      (dst : T) (s : St) (resp : http.Response) (w' : world) :
  client c req (env s) = (inr resp, w') ->
  ~ bodyless resp ->
  do c req (Some dst) s =
  ((match snd (unmarshal (http.RespBody resp) dst) with
    | Some m => inl (LibError encoding_json m)
    | None => inr resp
    end,
    Some (fst (unmarshal (http.RespBody resp) dst))),
   after_exchange s req w').
Proof.
  intros Hdo Hn.
  unfold do, bind, call, defer, emit, ret, after_exchange.
  rewrite Hdo. cbn [env trace].
  rewrite (not_bodyless_dec _ Hn).
  destruct (unmarshal (http.RespBody resp) dst) as [dst' [m|]];
    cbn; now rewrite <- app_assoc.
Qed.

(** The three ways an exchange can go. *)
Lemma do_cases {T : Type} `{Unmarshal T} (c : Client) (req : http.Request)
      (v : option T) (s : St) :
  (exists m w',
      client c req (env s) = (inl m, w') /\
      do c req v s =
      ((inl (LibError net_http m), v), recorded s (EvDo req) w'))
  \/ (exists resp w',
         client c req (env s) = (inr resp, w') /\
         (bodyless resp \/ v = None) /\
         do c req v s = ((inr resp, v), after_exchange s req w'))
  \/ (exists resp w' dst,
         client c req (env s) = (inr resp, w') /\
         ~ bodyless resp /\ v = Some dst /\
         do c req v s =
         ((match snd (unmarshal (http.RespBody resp) dst) with
           | Some m => inl (LibError encoding_json m)
           | None => inr resp
           end,
           Some (fst (unmarshal (http.RespBody resp) dst))),
          after_exchange s req w')).
Proof.
  destruct (client c req (env s)) as [[m | resp] w'] eqn:Hdo.
  - left. exists m, w'. split; [reflexivity|].
    now apply do_transport_failure.
  - right.
    destruct (bodyless_cases resp) as [Hb | Hb].
    + left. exists resp, w'. split; [reflexivity|]. split; [now left|].
      apply do_skips; [exact Hdo | now left].
    + destruct v as [dst|].
      * right. exists resp, w', dst. repeat split; try assumption.
        now apply do_decodes.
      * left. exists resp, w'. split; [reflexivity|]. split; [now right|].
        apply do_skips; [exact Hdo | now right].
Qed.

(** An exchange asks nothing of the database handle, and its first event
    is the request. *)
Lemma do_trace {T : Type} `{Unmarshal T} (c : Client) (req : http.Request)
      (v : option T) (s : St) :
  exists rest,
    trace (snd (do c req v s)) = (trace s ++ EvDo req :: rest)%list
    /\ closes (EvDo req :: rest) = 0.
Proof.
  destruct (do_cases c req v s)
    as [(m & w' & _ & ->) | [(resp & w' & _ & _ & ->)
                            | (resp & w' & dst & _ & _ & _ & ->)]].
  - exists []. split; reflexivity.
  - exists [EvBodyClose]. split; reflexivity.
  - exists [EvBodyClose]. split; reflexivity.
Qed.

(** [do] never fails with a value of this package. *)
Lemma do_error {T : Type} `{Unmarshal T} (c : Client) (req : http.Request)
      (v : option T) (s : St) (err : error) :
  fst (fst (do c req v s)) = inl err -> is_domain_error err = false.
Proof.
  destruct (do_cases c req v s)
    as [(m & w' & _ & ->) | [(resp & w' & _ & _ & ->)
                            | (resp & w' & dst & _ & _ & _ & ->)]];
    cbn [fst snd]; intro Herr.
  - now inversion Herr.
  - discriminate Herr.
  - destruct (snd (unmarshal (http.RespBody resp) dst));
      [now inversion Herr | discriminate Herr].
Qed.

(** Neither does [newRequest]. *)
Lemma newRequest_error (c : Client) (method endpoint : string)
      (body : option (list (string * string))) (err : error) :
  newRequest c method endpoint body = inl err -> is_domain_error err = false.
Proof.
  unfold newRequest. intro Herr.
  destruct body as [b|].
  - destruct (json_Encode b); [now inversion Herr|].
    destruct (http_NewRequestWithContext _ _ _);
      [now inversion Herr | discriminate Herr].
  - destruct (http_NewRequestWithContext _ _ _);
      [now inversion Herr | discriminate Herr].
Qed.

End CodecFacts.

(* ================================================================== *)
(** * Properties of the operations *)
(* ================================================================== *)

(** Decides every status test in sight and closes what arithmetic closes. *)
Ltac status_cases :=
  unfold http.StatusOK, http.StatusAccepted, http.StatusNoContent,
    http.StatusNotFound, http.StatusGone, http.StatusLocked,
    http.StatusServiceUnavailable in *;
  repeat match goal with
         | |- context [(?a =? ?b)%Z] => destruct (Z.eqb_spec a b)
         end;
  cbn [negb fst snd];
  try reflexivity; try lia; try congruence.

Section OperationFacts.

Import models.

Context `{Collaborators}.

Lemma unexpectedStatus_message (resp : http.Response) :
  unexpectedStatus resp = Errorf (unexpected_message resp).
Proof. reflexivity. Qed.

(** [InitializeTemplate] when the body of the answer is not read. *)
Lemma InitializeTemplate_bodyless (c : Client) (hash : string) (s : St)
      (req : http.Request) (resp : http.Response) (w' : world) :
  newRequest c "POST" "/templates" (Some [("hash", hash)]) = inr req ->
  client c req (env s) = (inr resp, w') ->
  bodyless resp ->
  InitializeTemplate c hash s =
  ((zeroTemplate, Some (unexpectedStatus resp)), after_exchange s req w').
Proof.
  intros Hreq Hdo Hb. unfold InitializeTemplate, bind. rewrite Hreq.
  rewrite (do_skips c req _ s resp w' Hdo (or_introl Hb)).
  cbn [pointee ret]. unfold ret.
  destruct Hb as [Hb | Hb]; rewrite Hb; reflexivity.
Qed.

(** [InitializeTemplate] when the body of the answer is decoded. *)
Lemma InitializeTemplate_decoded (c : Client) (hash : string) (s : St)
      (req : http.Request) (resp : http.Response) (w' : world) :
  newRequest c "POST" "/templates" (Some [("hash", hash)]) = inr req ->
  client c req (env s) = (inr resp, w') ->
  ~ bodyless resp ->
  InitializeTemplate c hash s =
  ((fst (unmarshal (http.RespBody resp) zeroTemplate),
    match snd (unmarshal (http.RespBody resp) zeroTemplate) with
    | Some m => Some (LibError encoding_json m)
    | None =>
        if (http.StatusCode resp =? 200)%Z then None
        else if (http.StatusCode resp =? 423)%Z then
          Some ErrTemplateAlreadyInitialized
        else if (http.StatusCode resp =? 503)%Z then Some ErrManagerNotReady
        else Some (unexpectedStatus resp)
    end),
   after_exchange s req w').
Proof.
  intros Hreq Hdo Hb. unfold InitializeTemplate, bind. rewrite Hreq.
  rewrite (do_decodes c req _ s resp w' Hdo Hb).
  cbn [pointee]. unfold ret.
  destruct (snd (unmarshal (http.RespBody resp) zeroTemplate));
    [reflexivity|].
  status_cases.
Qed.

Lemma InitializeTemplate_no_request (c : Client) (hash : string) (s : St)
      (err : error) :
  newRequest c "POST" "/templates" (Some [("hash", hash)]) = inl err ->
  InitializeTemplate c hash s = ((zeroTemplate, Some err), s).
Proof.
  intro Hreq. unfold InitializeTemplate. rewrite Hreq. reflexivity.
Qed.

Lemma InitializeTemplate_transport_failure (c : Client) (hash : string)
      (s : St) (req : http.Request) (m : string) (w' : world) :
  newRequest c "POST" "/templates" (Some [("hash", hash)]) = inr req ->
  client c req (env s) = (inl m, w') ->
  InitializeTemplate c hash s =
  ((zeroTemplate, Some (LibError net_http m)), recorded s (EvDo req) w').
Proof.
  intros Hreq Hdo. unfold InitializeTemplate, bind. rewrite Hreq.
  rewrite (do_transport_failure c req _ s m w' Hdo). reflexivity.
Qed.

(** [GetTestDatabase] when the body of the answer is not read. *)
Lemma GetTestDatabase_bodyless (c : Client) (hash : string) (s : St)
      (req : http.Request) (resp : http.Response) (w' : world) :
  newRequest c "GET"
    (GoFmt.Sprintf "/templates/%s/tests" [GoFmt.VString hash]) None
  = inr req ->
  client c req (env s) = (inr resp, w') ->
  bodyless resp ->
  GetTestDatabase c hash s =
  ((zeroTest, Some (unexpectedStatus resp)), after_exchange s req w').
Proof.
  intros Hreq Hdo Hb. unfold GetTestDatabase, bind. rewrite Hreq.
  rewrite (do_skips c req _ s resp w' Hdo (or_introl Hb)).
  cbn [pointee ret]. unfold ret.
  destruct Hb as [Hb | Hb]; rewrite Hb; reflexivity.
Qed.

(** [GetTestDatabase] when the body of the answer is decoded. *)
Lemma GetTestDatabase_decoded (c : Client) (hash : string) (s : St)
      (req : http.Request) (resp : http.Response) (w' : world) :
  newRequest c "GET"
    (GoFmt.Sprintf "/templates/%s/tests" [GoFmt.VString hash]) None
  = inr req ->
  client c req (env s) = (inr resp, w') ->
  ~ bodyless resp ->
  GetTestDatabase c hash s =
  ((fst (unmarshal (http.RespBody resp) zeroTest),
    match snd (unmarshal (http.RespBody resp) zeroTest) with
    | Some m => Some (LibError encoding_json m)
    | None =>
        if (http.StatusCode resp =? 200)%Z then None
        else if (http.StatusCode resp =? 404)%Z then Some ErrTemplateNotFound
        else if (http.StatusCode resp =? 410)%Z then
          Some ErrDatabaseDiscarded
        else if (http.StatusCode resp =? 503)%Z then Some ErrManagerNotReady
        else Some (unexpectedStatus resp)
    end),
   after_exchange s req w').
Proof.
  intros Hreq Hdo Hb. unfold GetTestDatabase, bind. rewrite Hreq.
  rewrite (do_decodes c req _ s resp w' Hdo Hb).
  cbn [pointee]. unfold ret.
  destruct (snd (unmarshal (http.RespBody resp) zeroTest));
    [reflexivity|].
  status_cases.
Qed.

(** [ResetAllTracking] when the body of the answer is not read. *)
Lemma ResetAllTracking_bodyless (c : Client) (s : St)
      (req : http.Request) (resp : http.Response) (w' : world) :
  newRequest c "DELETE" "/admin/templates" None = inr req ->
  client c req (env s) = (inr resp, w') ->
  bodyless resp ->
  ResetAllTracking c s =
  (if (http.StatusCode resp =? 204)%Z then None
   else Some (Errorf "failed to reset all tracking: "),
   after_exchange s req w').
Proof.
  intros Hreq Hdo Hb. unfold ResetAllTracking, bind. rewrite Hreq.
  rewrite (do_skips c req _ s resp w' Hdo (or_introl Hb)).
  cbn [pointee]. unfold ret. status_cases.
Qed.

Lemma Sprintf_reset_message (msg : string) :
  GoFmt.Sprintf "failed to reset all tracking: %v" [GoFmt.VString msg]
  = "failed to reset all tracking: " ++ msg.
Proof. cbn. now rewrite GoPathFacts.append_nil_r. Qed.

(** [ResetAllTracking] when the body of the answer is decoded. *)
Lemma ResetAllTracking_decoded (c : Client) (s : St)
      (req : http.Request) (resp : http.Response) (w' : world) :
  newRequest c "DELETE" "/admin/templates" None = inr req ->
  client c req (env s) = (inr resp, w') ->
  ~ bodyless resp ->
  ResetAllTracking c s =
  (match snd (unmarshal (http.RespBody resp) "") with
   | Some m => Some (LibError encoding_json m)
   | None =>
       Some (Errorf ("failed to reset all tracking: "
                       ++ fst (unmarshal (http.RespBody resp) "")))
   end,
   after_exchange s req w').
Proof.
  intros Hreq Hdo Hb. unfold ResetAllTracking, bind. rewrite Hreq.
  rewrite (do_decodes c req _ s resp w' Hdo Hb).
  cbn [pointee]. unfold ret.
  destruct (snd (unmarshal (http.RespBody resp) ""));
    [reflexivity|].
  rewrite Sprintf_reset_message.
  assert (Hn : http.StatusCode resp <> http.StatusNoContent)
    by (intro Hc; apply Hb; now right).
  status_cases.
Qed.

(** The three operations without a destination, once the exchange is
    completed. *)
Lemma DiscardTemplate_completed (c : Client) (hash : string) (s : St)
      (req : http.Request) (resp : http.Response) (w' : world) :
  newRequest c "DELETE"
    (GoFmt.Sprintf "/templates/%s" [GoFmt.VString hash]) None = inr req ->
  client c req (env s) = (inr resp, w') ->
  DiscardTemplate c hash s =
  (if (http.StatusCode resp =? 204)%Z then None
   else if (http.StatusCode resp =? 404)%Z then Some ErrTemplateNotFound
   else if (http.StatusCode resp =? 503)%Z then Some ErrManagerNotReady
   else Some (unexpectedStatus resp),
   after_exchange s req w').
Proof.
  intros Hreq Hdo. unfold DiscardTemplate, bind. rewrite Hreq.
  rewrite (do_skips c req _ s resp w' Hdo (or_intror eq_refl)).
  unfold ret. status_cases.
Qed.

Lemma FinalizeTemplate_completed (c : Client) (hash : string) (s : St)
      (req : http.Request) (resp : http.Response) (w' : world) :
  newRequest c "PUT"
    (GoFmt.Sprintf "/templates/%s" [GoFmt.VString hash]) None = inr req ->
  client c req (env s) = (inr resp, w') ->
  FinalizeTemplate c hash s =
  (if (http.StatusCode resp =? 204)%Z then None
   else if (http.StatusCode resp =? 404)%Z then Some ErrTemplateNotFound
   else if (http.StatusCode resp =? 503)%Z then Some ErrManagerNotReady
   else Some (unexpectedStatus resp),
   after_exchange s req w').
Proof.
  intros Hreq Hdo. unfold FinalizeTemplate, bind. rewrite Hreq.
  rewrite (do_skips c req _ s resp w' Hdo (or_intror eq_refl)).
  unfold ret. status_cases.
Qed.


(** ** What every call of an operation leaves behind *)

(** Opens an operation on its request and on its exchange. *)
Ltac open_operation :=
  unfold bind;
  match goal with
  | |- context [newRequest ?c ?m ?e ?b] =>
      let Hreq := fresh "Hreq" in
      destruct (newRequest c m e b) as [err0 | req0] eqn:Hreq
  end;
  [ | match goal with
      | |- context [do ?c ?req ?v ?s] =>
          let Htr := fresh "Htr" in
          let Herr := fresh "Herr" in
          pose proof (do_trace c req v s) as Htr;
          pose proof (do_error c req v s) as Herr;
          destruct (do c req v s) as [[r0 v0] s0];
          cbn [fst snd] in Htr, Herr;
          destruct r0 as [err0 | resp0]
      end ].

(** Closes the goals about the trace of an operation that [open_operation]
    leaves. *)
Ltac trace_goals :=
  unfold ret; cbn [fst snd];
  first
    [ exists []; split; [now rewrite app_nil_r | reflexivity]
    | match goal with
      | Htr : ex _ |- _ =>
          let rest := fresh "rest" in
          let Ht := fresh "Ht" in
          let Hc := fresh "Hc" in
          destruct Htr as (rest & Ht & Hc);
          repeat match goal with
                 | |- context [if ?b then _ else _] => destruct b
                 end;
          cbn [fst snd];
          (eexists; split; [exact Ht | exact Hc])
      end ].

Lemma ResetAllTracking_trace (c : Client) (s : St) :
  exists rest,
    trace (snd (ResetAllTracking c s)) = (trace s ++ rest)%list
    /\ closes rest = 0.
Proof. unfold ResetAllTracking. open_operation; trace_goals. Qed.

Lemma InitializeTemplate_trace (c : Client) (hash : string) (s : St) :
  exists rest,
    trace (snd (InitializeTemplate c hash s)) = (trace s ++ rest)%list
    /\ closes rest = 0.
Proof. unfold InitializeTemplate. open_operation; trace_goals. Qed.

Lemma DiscardTemplate_trace (c : Client) (hash : string) (s : St) :
  exists rest,
    trace (snd (DiscardTemplate c hash s)) = (trace s ++ rest)%list
    /\ closes rest = 0.
Proof. unfold DiscardTemplate. open_operation; trace_goals. Qed.

Lemma FinalizeTemplate_trace (c : Client) (hash : string) (s : St) :
  exists rest,
    trace (snd (FinalizeTemplate c hash s)) = (trace s ++ rest)%list
    /\ closes rest = 0.
Proof. unfold FinalizeTemplate. open_operation; trace_goals. Qed.

Lemma GetTestDatabase_trace (c : Client) (hash : string) (s : St) :
  exists rest,
    trace (snd (GetTestDatabase c hash s)) = (trace s ++ rest)%list
    /\ closes rest = 0.
Proof. unfold GetTestDatabase. open_operation; trace_goals. Qed.

Lemma ReturnTestDatabase_trace (c : Client) (hash : string) (id : Z)
      (s : St) :
  exists rest,
    trace (snd (ReturnTestDatabase c hash id s)) = (trace s ++ rest)%list
    /\ closes rest = 0.
Proof. unfold ReturnTestDatabase. open_operation; trace_goals. Qed.

(** Closes the goals about the error of an operation that
    [open_operation] leaves. *)
Ltac error_goals :=
  unfold ret; cbn [fst snd];
  repeat match goal with
         | |- context [if ?b then _ else _] => destruct b
         end;
  cbn [fst snd];
  let He := fresh "He" in
  intro He; inversion He; subst;
  eauto 6 using newRequest_error.

Lemma ResetAllTracking_errors (c : Client) (s : St) (e : error) :
  fst (ResetAllTracking c s) = Some e -> is_domain_error e = false.
Proof. unfold ResetAllTracking. open_operation; error_goals. Qed.

Lemma InitializeTemplate_errors (c : Client) (hash : string) (s : St)
      (e : error) :
  snd (fst (InitializeTemplate c hash s)) = Some e ->
  e = ErrTemplateAlreadyInitialized \/ e = ErrManagerNotReady
  \/ is_domain_error e = false.
Proof. unfold InitializeTemplate. open_operation; error_goals. Qed.

Lemma DiscardTemplate_errors (c : Client) (hash : string) (s : St)
      (e : error) :
  fst (DiscardTemplate c hash s) = Some e ->
  e = ErrTemplateNotFound \/ e = ErrManagerNotReady
  \/ is_domain_error e = false.
Proof. unfold DiscardTemplate. open_operation; error_goals. Qed.

Lemma FinalizeTemplate_errors (c : Client) (hash : string) (s : St)
      (e : error) :
  fst (FinalizeTemplate c hash s) = Some e ->
  e = ErrTemplateNotFound \/ e = ErrManagerNotReady
  \/ is_domain_error e = false.
Proof. unfold FinalizeTemplate. open_operation; error_goals. Qed.

Lemma GetTestDatabase_errors (c : Client) (hash : string) (s : St)
      (e : error) :
  snd (fst (GetTestDatabase c hash s)) = Some e ->
  e = ErrTemplateNotFound \/ e = ErrDatabaseDiscarded
  \/ e = ErrManagerNotReady \/ is_domain_error e = false.
Proof. unfold GetTestDatabase. open_operation; error_goals. Qed.

Lemma ReturnTestDatabase_errors (c : Client) (hash : string) (id : Z)
      (s : St) (e : error) :
  fst (ReturnTestDatabase c hash id s) = Some e ->
  e = ErrTemplateNotFound \/ e = ErrManagerNotReady
  \/ is_domain_error e = false.
Proof. unfold ReturnTestDatabase. open_operation; error_goals. Qed.

End OperationFacts.

(* ================================================================== *)
(** * The codec and the status classification *)
(* ================================================================== *)

Section Classification.

Import models.

Context `{Collaborators}.

(** C7. For every completed exchange, [do] decodes the body of the answer
    into the destination unless the status is 202 or 204 or the destination
    is nil; in those cases the destination is left as it was. Whenever [do]
    returns without an error, what it returns is the answer of the
    transport, status code included. *)
Theorem do_decodes_unless_bodyless_or_nil
        {T : Type} `{Unmarshal T} (c : Client) (req : http.Request)
        (v : option T) (s : St) (resp : http.Response) (w' : world) :
  client c req (env s) = (inr resp, w') ->
  (bodyless resp \/ v = None ->
   do c req v s = ((inr resp, v), after_exchange s req w'))
  /\ (forall dst : T,
         ~ bodyless resp -> v = Some dst ->
         snd (fst (do c req v s))
         = Some (fst (unmarshal (http.RespBody resp) dst))
         /\ (snd (unmarshal (http.RespBody resp) dst) = None ->
             fst (fst (do c req v s)) = inr resp))
  /\ (forall resp' : http.Response,
         fst (fst (do c req v s)) = inr resp' ->
         http.StatusCode resp' = http.StatusCode resp).
Proof.
  intro Hdo. split; [|split].
  - intro Hskip. now apply do_skips.
  - intros dst Hb ->. rewrite (do_decodes c req dst s resp w' Hdo Hb).
    cbn [fst snd]. split; [reflexivity|]. now intros ->.
  - intros resp' Hret.
    destruct (do_cases c req v s)
      as [(m & w1 & Hc & _) | [(r1 & w1 & Hc & _ & Heq)
                              | (r1 & w1 & dst & Hc & _ & _ & Heq)]].
    + congruence.
    + rewrite Heq in Hret. cbn [fst snd] in Hret. congruence.
    + rewrite Heq in Hret. cbn [fst snd] in Hret.
      destruct (snd (unmarshal (http.RespBody r1) dst)); congruence.
Qed.

(** C9. When a destination is passed ([InitializeTemplate],
    [GetTestDatabase], [ResetAllTracking]), the status is neither 202 nor
    204 and the body does not decode, the call returns the decoding failure
    and the status is not classified. *)
Theorem decode_failure_precedes_classification
        (c : Client) (s : St) (req : http.Request) (resp : http.Response)
        (w' : world) :
  client c req (env s) = (inr resp, w') ->
  ~ bodyless resp ->
  (forall (hash m : string),
      newRequest c "POST" "/templates" (Some [("hash", hash)]) = inr req ->
      snd (unmarshal (http.RespBody resp) zeroTemplate) = Some m ->
      snd (fst (InitializeTemplate c hash s))
      = Some (LibError encoding_json m))
  /\ (forall (hash m : string),
         newRequest c "GET"
           (GoFmt.Sprintf "/templates/%s/tests" [GoFmt.VString hash]) None
         = inr req ->
         snd (unmarshal (http.RespBody resp) zeroTest) = Some m ->
         snd (fst (GetTestDatabase c hash s))
         = Some (LibError encoding_json m))
  /\ (forall m : string,
         newRequest c "DELETE" "/admin/templates" None = inr req ->
         snd (unmarshal (http.RespBody resp) "") = Some m ->
         fst (ResetAllTracking c s) = Some (LibError encoding_json m)).
Proof.
  intros Hdo Hb. split; [|split].
  - intros hash m Hreq Hm.
    rewrite (InitializeTemplate_decoded c hash s req resp w' Hreq Hdo Hb).
    cbn [fst snd]. now rewrite Hm.
  - intros hash m Hreq Hm.
    rewrite (GetTestDatabase_decoded c hash s req resp w' Hreq Hdo Hb).
    cbn [fst snd]. now rewrite Hm.
  - intros m Hreq Hm.
    rewrite (ResetAllTracking_decoded c s req resp w' Hreq Hdo Hb).
    cbn [fst snd]. now rewrite Hm.
Qed.

(** C3, amended. For every hash, when the exchange is completed and its
    body decodes into the template (or is not read, the status being 202 or
    204), [InitializeTemplate] maps the status: 200 returns the decoded
    descriptor without an error, 423 signals [ErrTemplateAlreadyInitialized],
    503 signals [ErrManagerNotReady], any other status gives the unexpected
    status failure, whose message carries the code. *)
Theorem InitializeTemplate_status_mapping
        (c : Client) (hash : string) (s : St) (req : http.Request)
        (resp : http.Response) (w' : world) :
  newRequest c "POST" "/templates" (Some [("hash", hash)]) = inr req ->
  client c req (env s) = (inr resp, w') ->
  bodyless resp
  \/ snd (unmarshal (http.RespBody resp) zeroTemplate) = None ->
  let code := http.StatusCode resp in
  let result := fst (InitializeTemplate c hash s) in
  (code = 200%Z ->
   result = (fst (unmarshal (http.RespBody resp) zeroTemplate), None))
  /\ (code = 423%Z -> snd result = Some ErrTemplateAlreadyInitialized)
  /\ (code = 503%Z -> snd result = Some ErrManagerNotReady)
  /\ (code <> 200%Z -> code <> 423%Z -> code <> 503%Z ->
      snd result = Some (Errorf (unexpected_message resp))).
Proof.
  intros Hreq Hdo Hok code result. subst code result.
  destruct (bodyless_cases resp) as [Hb | Hb].
  - rewrite (InitializeTemplate_bodyless c hash s req resp w' Hreq Hdo Hb).
    cbn [fst snd]. rewrite unexpectedStatus_message.
    unfold bodyless in Hb. status_cases. repeat split; intros; lia.
  - destruct Hok as [Hok | Hok]; [contradiction|].
    rewrite (InitializeTemplate_decoded c hash s req resp w' Hreq Hdo Hb).
    cbn [fst snd]. rewrite Hok, unexpectedStatus_message.
    repeat split; intros; status_cases.
Qed.

(** C4, amended. For every hash, when the exchange is completed and its
    body decodes into the test database (or is not read), [GetTestDatabase]
    maps the status: 200 returns the decoded test database, 404 signals
    [ErrTemplateNotFound], 410 signals [ErrDatabaseDiscarded], a kind of its
    own, 503 signals [ErrManagerNotReady], any other status gives the
    unexpected status failure, whose message carries the code. *)
Theorem GetTestDatabase_status_mapping
        (c : Client) (hash : string) (s : St) (req : http.Request)
        (resp : http.Response) (w' : world) :
  newRequest c "GET"
    (GoFmt.Sprintf "/templates/%s/tests" [GoFmt.VString hash]) None
  = inr req ->
  client c req (env s) = (inr resp, w') ->
  bodyless resp \/ snd (unmarshal (http.RespBody resp) zeroTest) = None ->
  let code := http.StatusCode resp in
  let result := fst (GetTestDatabase c hash s) in
  (code = 200%Z ->
   result = (fst (unmarshal (http.RespBody resp) zeroTest), None))
  /\ (code = 404%Z -> snd result = Some ErrTemplateNotFound)
  /\ (code = 410%Z -> snd result = Some ErrDatabaseDiscarded)
  /\ ErrDatabaseDiscarded <> ErrTemplateNotFound
  /\ (code = 503%Z -> snd result = Some ErrManagerNotReady)
  /\ (code <> 200%Z -> code <> 404%Z -> code <> 410%Z -> code <> 503%Z ->
      snd result = Some (Errorf (unexpected_message resp))).
Proof.
  intros Hreq Hdo Hok code result. subst code result.
  destruct (bodyless_cases resp) as [Hb | Hb].
  - rewrite (GetTestDatabase_bodyless c hash s req resp w' Hreq Hdo Hb).
    cbn [fst snd]. rewrite unexpectedStatus_message.
    unfold bodyless in Hb. status_cases.
    repeat split; intros; try lia; discriminate.
  - destruct Hok as [Hok | Hok]; [contradiction|].
    rewrite (GetTestDatabase_decoded c hash s req resp w' Hreq Hdo Hb).
    cbn [fst snd]. rewrite Hok, unexpectedStatus_message.
    repeat split; intros; status_cases.
Qed.

End Classification.

Section Outcomes.

Import models.

Context `{Collaborators}.

(** C5. [FinalizeTemplate] and [DiscardTemplate] map the status of a
    completed exchange in the same way, for every hash and each on its own:
    204 is success, 404 signals [ErrTemplateNotFound] (a named kind, not the
    unexpected status failure), 503 signals [ErrManagerNotReady], any other
    status gives the unexpected status failure, whose message carries the
    code. So two answers with the same status code and status line give both
    operations the same outcome. *)
Theorem Finalize_Discard_status_mapping
        (c : Client) (hash : string) (s : St) :
  let mapping (resp : http.Response) (outcome : option error) : Prop :=
    let code := http.StatusCode resp in
    (code = 204%Z -> outcome = None)
    /\ (code = 404%Z ->
        outcome = Some ErrTemplateNotFound
        /\ is_domain_error ErrTemplateNotFound = true)
    /\ (code = 503%Z -> outcome = Some ErrManagerNotReady)
    /\ (code <> 204%Z -> code <> 404%Z -> code <> 503%Z ->
        outcome = Some (Errorf (unexpected_message resp))) in
  (forall req resp w',
      newRequest c "PUT"
        (GoFmt.Sprintf "/templates/%s" [GoFmt.VString hash]) None = inr req ->
      client c req (env s) = (inr resp, w') ->
      mapping resp (fst (FinalizeTemplate c hash s)))
  /\ (forall req resp w',
         newRequest c "DELETE"
           (GoFmt.Sprintf "/templates/%s" [GoFmt.VString hash]) None
         = inr req ->
         client c req (env s) = (inr resp, w') ->
         mapping resp (fst (DiscardTemplate c hash s)))
  /\ (forall put delete resp1 resp2 w1 w2,
         newRequest c "PUT"
           (GoFmt.Sprintf "/templates/%s" [GoFmt.VString hash]) None
         = inr put ->
         newRequest c "DELETE"
           (GoFmt.Sprintf "/templates/%s" [GoFmt.VString hash]) None
         = inr delete ->
         client c put (env s) = (inr resp1, w1) ->
         client c delete (env s) = (inr resp2, w2) ->
         http.StatusCode resp1 = http.StatusCode resp2 ->
         http.Status resp1 = http.Status resp2 ->
         fst (FinalizeTemplate c hash s) = fst (DiscardTemplate c hash s)).
Proof.
  cbv zeta. split; [|split].
  - intros req resp w' Hreq Hdo.
    rewrite (FinalizeTemplate_completed c hash s req resp w' Hreq Hdo).
    cbn [fst]. rewrite unexpectedStatus_message.
    repeat split; intros; status_cases.
  - intros req resp w' Hreq Hdo.
    rewrite (DiscardTemplate_completed c hash s req resp w' Hreq Hdo).
    cbn [fst]. rewrite unexpectedStatus_message.
    repeat split; intros; status_cases.
  - intros put delete resp1 resp2 w1 w2 Hput Hdelete Hdo1 Hdo2 Hcode Hline.
    rewrite (FinalizeTemplate_completed c hash s put resp1 w1 Hput Hdo1).
    rewrite (DiscardTemplate_completed c hash s delete resp2 w2 Hdelete Hdo2).
    cbn [fst]. rewrite !unexpectedStatus_message.
    unfold unexpected_message. now rewrite Hcode, Hline.
Qed.

(** C8, amended. [ResetAllTracking] returns success exactly when the
    status of the completed exchange is 204. On any other status it fails,
    never with a named domain kind: with a generic failure whose message
    carries the text decoded from the body when the status is not 202 and
    the body decodes, with a generic failure without any text when the
    status is 202 (the body is then not read), and with the decoding
    failure when the body does not decode. *)
Theorem ResetAllTracking_outcome
        (c : Client) (s : St) (req : http.Request) (resp : http.Response)
        (w' : world) :
  newRequest c "DELETE" "/admin/templates" None = inr req ->
  client c req (env s) = (inr resp, w') ->
  let code := http.StatusCode resp in
  let result := fst (ResetAllTracking c s) in
  (result = None <-> code = 204%Z)
  /\ (forall e, result = Some e -> is_domain_error e = false)
  /\ (code = 202%Z -> result = Some (Errorf "failed to reset all tracking: "))
  /\ (code <> 202%Z -> code <> 204%Z ->
      forall text : string,
        unmarshal (http.RespBody resp) "" = (text, None) ->
        result = Some (Errorf ("failed to reset all tracking: " ++ text)))
  /\ (code <> 202%Z -> code <> 204%Z ->
      forall m : string,
        snd (unmarshal (http.RespBody resp) "") = Some m ->
        result = Some (LibError encoding_json m)).
Proof.
  intros Hreq Hdo code result. subst code result.
  split; [|split; [intros e; apply ResetAllTracking_errors|]].
  - destruct (bodyless_cases resp) as [Hb | Hb].
    + rewrite (ResetAllTracking_bodyless c s req resp w' Hreq Hdo Hb).
      cbn [fst]. status_cases;
        (split; intros;
         first [assumption | reflexivity | discriminate | contradiction]).
    + rewrite (ResetAllTracking_decoded c s req resp w' Hreq Hdo Hb).
      cbn [fst]. split.
      * destruct (snd (unmarshal (http.RespBody resp) "")); discriminate.
      * intro Hc. exfalso. apply Hb. now right.
  - split; [|split].
    + intro Hc.
      assert (Hb : bodyless resp) by (now left).
      rewrite (ResetAllTracking_bodyless c s req resp w' Hreq Hdo Hb).
      cbn [fst]. rewrite Hc. reflexivity.
    + intros H202 H204 text Htext.
      assert (Hb : ~ bodyless resp) by (intros [Hc | Hc]; contradiction).
      rewrite (ResetAllTracking_decoded c s req resp w' Hreq Hdo Hb).
      cbn [fst]. now rewrite Htext.
    + intros H202 H204 m Hm.
      assert (Hb : ~ bodyless resp) by (intros [Hc | Hc]; contradiction).
      rewrite (ResetAllTracking_decoded c s req resp w' Hreq Hdo Hb).
      cbn [fst]. now rewrite Hm.
Qed.

End Outcomes.

(* ================================================================== *)
(** * The template life cycle *)
(* ================================================================== *)

Section Lifecycle.

Import models.

Context `{Collaborators}.

(** C1. For every hash and every populate step, [SetupTemplate] starts by
    [InitializeTemplate]. If that succeeds it calls the populate step with
    the connection string of the template it got; an error of the populate
    step is returned as it is and nothing is asked of the manager after it,
    and only without such an error [FinalizeTemplate] runs, right after the
    populate step. If [InitializeTemplate] signals
    [ErrTemplateAlreadyInitialized], the result is success and the populate
    step has not run; any other error of [InitializeTemplate] is returned as
    it is. *)
Theorem SetupTemplate_protocol
        (c : Client) (hash : string) (init : populate_fn) (s s1 : St)
        (template : TemplateDatabase) (ierr : option error) :
  InitializeTemplate c hash s = ((template, ierr), s1) ->
  let conn := ConnectionString (Config template) in
  let populated :=
    recorded s1 (EvPopulate conn) (snd (init conn (env s1))) in
  let run := SetupTemplate c hash init s in
  (exists rest, trace (snd run) = (trace s1 ++ rest)%list)
  /\ (ierr = None ->
      forall e, fst (init conn (env s1)) = Some e ->
                run = (Some e, populated))
  /\ (ierr = None ->
      fst (init conn (env s1)) = None ->
      run = FinalizeTemplate c hash populated)
  /\ (ierr = Some ErrTemplateAlreadyInitialized -> run = (None, s1))
  /\ (forall e, ierr = Some e -> e <> ErrTemplateAlreadyInitialized ->
                run = (Some e, s1)).
Proof.
  intros Hinit conn populated run.
  assert (Hrun :
    run =
    match ierr with
    | None =>
        match fst (init conn (env s1)) with
        | Some e => (Some e, populated)
        | None => FinalizeTemplate c hash populated
        end
    | Some ErrTemplateAlreadyInitialized => (None, s1)
    | Some e => (Some e, s1)
    end).
  { subst run populated. unfold SetupTemplate, bind. rewrite Hinit.
    fold conn. destruct ierr as [e|]; [destruct e; reflexivity|].
    unfold call, recorded.
    destruct (init conn (env s1)) as [[e|] w2]; reflexivity. }
  split; [|split; [|split; [|split]]].
  - rewrite Hrun. destruct ierr as [e|].
    + exists []. rewrite app_nil_r. destruct e; reflexivity.
    + destruct (fst (init conn (env s1))) as [e|].
      * exists [EvPopulate conn]. reflexivity.
      * destruct (FinalizeTemplate_trace c hash populated)
          as (rest & Ht & _).
        exists (EvPopulate conn :: rest).
        rewrite Ht. subst populated. unfold recorded. cbn [trace].
        now rewrite <- app_assoc.
  - intros Hi e He. now rewrite Hrun, Hi, He.
  - intros Hi He. now rewrite Hrun, Hi, He.
  - intros Hi. now rewrite Hrun, Hi.
  - intros e Hi Hne. rewrite Hrun, Hi.
    destruct e; try reflexivity. contradiction.
Qed.

(** C2. In [SetupTemplateWithDBClient], once the handle is opened it is
    closed exactly once, as the last thing done, however the call ends: the
    probe fails, the populate step fails, [FinalizeTemplate] fails or all
    succeeds. The probe comes before the populate step, and when the probe
    fails its error is returned and neither the populate step nor
    [FinalizeTemplate] runs. *)
Theorem SetupTemplateWithDBClient_closes_handle
        (c : Client) (hash : string) (init : populate_db_fn) (s s1 : St)
        (template : TemplateDatabase) (db : DB) (w2 : world) :
  InitializeTemplate c hash s = ((template, None), s1) ->
  let dsn := ConnectionString (Config template) in
  sql_Open "postgres" dsn (env s1) = (inr db, w2) ->
  let opened := recorded s1 (EvOpen "postgres" dsn) w2 in
  let pinged := recorded opened (EvPing db) (snd (DB_PingContext db w2)) in
  let populated :=
    recorded pinged (EvPopulateDB db) (snd (init db (env pinged))) in
  let run := SetupTemplateWithDBClient c hash init s in
  closes (trace (snd run)) = S (closes (trace s))
  /\ (exists before, snd run = after_close before db)
  /\ (forall m, fst (DB_PingContext db w2) = Some m ->
                run = (Some (LibError database_sql m), after_close pinged db))
  /\ (fst (DB_PingContext db w2) = None ->
      forall e, fst (init db (env pinged)) = Some e ->
                run = (Some e, after_close populated db))
  /\ (fst (DB_PingContext db w2) = None ->
      fst (init db (env pinged)) = None ->
      run = (fst (FinalizeTemplate c hash populated),
             after_close (snd (FinalizeTemplate c hash populated)) db)).
Proof.
  intros Hinit dsn Hopen opened pinged populated run.
  assert (Hs1 : closes (trace s1) = closes (trace s)).
  { destruct (InitializeTemplate_trace c hash s) as (rest & Ht & Hc).
    rewrite Hinit in Ht. cbn [snd] in Ht.
    rewrite Ht, closes_app, Hc. lia. }
  assert (Hrun :
    run =
    match fst (DB_PingContext db w2) with
    | Some m => (Some (LibError database_sql m), after_close pinged db)
    | None =>
        match fst (init db (env pinged)) with
        | Some e => (Some e, after_close populated db)
        | None =>
            (fst (FinalizeTemplate c hash populated),
             after_close (snd (FinalizeTemplate c hash populated)) db)
        end
    end).
  { subst run. unfold SetupTemplateWithDBClient, bind. rewrite Hinit.
    fold dsn. unfold call at 1. rewrite Hopen.
    subst populated pinged opened.
    unfold defer, bind, call, ret, after_close, recorded.
    cbn [env trace].
    destruct (DB_PingContext db w2) as [[m|] w3]; cbn [fst snd env trace].
    - destruct (DB_Close db w3); reflexivity.
    - destruct (init db w3) as [[e|] w4]; cbn [fst snd env trace].
      + destruct (DB_Close db w4); reflexivity.
      + match goal with
        | |- context [FinalizeTemplate c hash ?st] =>
            destruct (FinalizeTemplate c hash st) as [ferr s5]
        end.
        cbn [fst snd]. destruct (DB_Close db (env s5)); reflexivity. }
  assert (Hpinged : closes (trace pinged) = closes (trace s)).
  { subst pinged opened. unfold recorded. cbn [trace].
    rewrite !closes_app, Hs1. cbn. lia. }
  assert (Hpopulated : closes (trace populated) = closes (trace s)).
  { subst populated. unfold recorded at 1. cbn [trace].
    rewrite closes_app, Hpinged. cbn. lia. }
  assert (Hclose : forall st,
             closes (trace (after_close st db)) = S (closes (trace st))).
  { intro st. unfold after_close, recorded. cbn [trace].
    rewrite closes_app. cbn. lia. }
  split; [|split; [|split; [|split]]].
  - rewrite Hrun.
    destruct (fst (DB_PingContext db w2)); cbn [snd].
    + now rewrite Hclose, Hpinged.
    + destruct (fst (init db (env pinged))); cbn [snd].
      * now rewrite Hclose, Hpopulated.
      * rewrite Hclose.
        destruct (FinalizeTemplate_trace c hash populated)
          as (rest & Ht & Hc).
        rewrite Ht, closes_app, Hc, Hpopulated. lia.
  - rewrite Hrun.
    destruct (fst (DB_PingContext db w2)); cbn [snd]; [now eexists|].
    destruct (fst (init db (env pinged))); cbn [snd]; now eexists.
  - intros m Hm. now rewrite Hrun, Hm.
  - intros Hp e He. now rewrite Hrun, Hp, He.
  - intros Hp He. now rewrite Hrun, Hp, He.
Qed.

End Lifecycle.

(* ================================================================== *)
(** * Error kinds and request paths *)
(* ================================================================== *)

Section Requests.

Import models.

Context `{Collaborators}.

(** After the request is built, the exchange is the first thing an
    operation asks for. *)
Ltac sends Hreq :=
  unfold bind; rewrite Hreq;
  match goal with
  | |- context [do ?c ?req ?v ?s] =>
      let rest := fresh "rest" in
      let Ht := fresh "Ht" in
      destruct (do_trace c req v s) as (rest & Ht & _);
      destruct (do c req v s) as [[r0 v0] s0];
      cbn [fst snd] in Ht;
      exists rest; destruct r0; unfold ret;
      repeat match goal with
             | |- context [if ?b then _ else _] => destruct b
             end;
      exact Ht
  end.

Lemma DiscardTemplate_sends (c : Client) (hash : string) (s : St)
      (req : http.Request) :
  newRequest c "DELETE"
    (GoFmt.Sprintf "/templates/%s" [GoFmt.VString hash]) None = inr req ->
  exists rest,
    trace (snd (DiscardTemplate c hash s)) = (trace s ++ EvDo req :: rest)%list.
Proof. intro Hreq. unfold DiscardTemplate. sends Hreq. Qed.

Lemma FinalizeTemplate_sends (c : Client) (hash : string) (s : St)
      (req : http.Request) :
  newRequest c "PUT"
    (GoFmt.Sprintf "/templates/%s" [GoFmt.VString hash]) None = inr req ->
  exists rest,
    trace (snd (FinalizeTemplate c hash s))
    = (trace s ++ EvDo req :: rest)%list.
Proof. intro Hreq. unfold FinalizeTemplate. sends Hreq. Qed.

Lemma GetTestDatabase_sends (c : Client) (hash : string) (s : St)
      (req : http.Request) :
  newRequest c "GET"
    (GoFmt.Sprintf "/templates/%s/tests" [GoFmt.VString hash]) None
  = inr req ->
  exists rest,
    trace (snd (GetTestDatabase c hash s))
    = (trace s ++ EvDo req :: rest)%list.
Proof. intro Hreq. unfold GetTestDatabase. sends Hreq. Qed.

Lemma InitializeTemplate_sends (c : Client) (hash : string) (s : St)
      (req : http.Request) :
  newRequest c "POST" "/templates" (Some [("hash", hash)]) = inr req ->
  exists rest,
    trace (snd (InitializeTemplate c hash s))
    = (trace s ++ EvDo req :: rest)%list.
Proof. intro Hreq. unfold InitializeTemplate. sends Hreq. Qed.

(** The endpoint of a template, and of its tests, for the empty hash. *)
Lemma Sprintf_template_empty :
  GoFmt.Sprintf "/templates/%s" [GoFmt.VString ""] = "/templates/".
Proof. reflexivity. Qed.

Lemma Sprintf_tests_empty :
  GoFmt.Sprintf "/templates/%s/tests" [GoFmt.VString ""]
  = "/templates//tests".
Proof. reflexivity. Qed.

Lemma endpointPath_template_empty (c : Client) :
  endpointPath c "/templates/" = endpointPath c "/templates".
Proof.
  unfold endpointPath.
  apply GoPathFacts.Join_endpoints_agree;
    [discriminate | discriminate
     | apply GoPathFacts.templates_trailing_slash | reflexivity].
Qed.

Lemma endpointPath_tests_empty (c : Client) :
  endpointPath c "/templates//tests" = endpointPath c "/templates/tests".
Proof.
  unfold endpointPath.
  apply GoPathFacts.Join_endpoints_agree;
    [discriminate | discriminate
     | apply GoPathFacts.templates_tests_empty_segment | reflexivity].
Qed.

(** A request depends on its endpoint through the joined path only. *)
Lemma newRequest_same_path (c : Client) (method e1 e2 : string)
      (body : option (list (string * string))) :
  endpointPath c e1 = endpointPath c e2 ->
  newRequest c method e1 body = newRequest c method e2 body.
Proof. intro Hp. unfold newRequest. now rewrite Hp. Qed.

(** C10. With the empty hash the paths of a template collapse when they
    are joined to the base path, whatever the base: the endpoint of
    [DiscardTemplate] and [FinalizeTemplate] is [/templates/] and joins to
    the path of the collection, the one [InitializeTemplate] posts to, and
    the endpoint of [GetTestDatabase] joins to the path of [/templates/tests],
    the segment of the hash being dropped. The request that each of the three
    operations sends is the request built for the collapsed path. *)
Theorem empty_hash_paths_collapse (c : Client) (s : St) :
  GoFmt.Sprintf "/templates/%s" [GoFmt.VString ""] = "/templates/"
  /\ endpointPath c (GoFmt.Sprintf "/templates/%s" [GoFmt.VString ""])
     = endpointPath c "/templates"
  /\ endpointPath c (GoFmt.Sprintf "/templates/%s/tests" [GoFmt.VString ""])
     = endpointPath c "/templates/tests"
  /\ (forall req,
         newRequest c "DELETE" "/templates" None = inr req ->
         exists rest,
           trace (snd (DiscardTemplate c "" s))
           = (trace s ++ EvDo req :: rest)%list)
  /\ (forall req,
         newRequest c "PUT" "/templates" None = inr req ->
         exists rest,
           trace (snd (FinalizeTemplate c "" s))
           = (trace s ++ EvDo req :: rest)%list)
  /\ (forall req,
         newRequest c "GET" "/templates/tests" None = inr req ->
         exists rest,
           trace (snd (GetTestDatabase c "" s))
           = (trace s ++ EvDo req :: rest)%list)
  /\ (forall hash post delete,
         newRequest c "POST" "/templates" (Some [("hash", hash)])
         = inr post ->
         newRequest c "DELETE" "/templates" None = inr delete ->
         exists rest1 rest2,
           trace (snd (InitializeTemplate c hash s))
           = (trace s ++ EvDo post :: rest1)%list
           /\ trace (snd (DiscardTemplate c "" s))
              = (trace s ++ EvDo delete :: rest2)%list).
Proof.
  assert (Ht : forall method,
             newRequest c method
               (GoFmt.Sprintf "/templates/%s" [GoFmt.VString ""]) None
             = newRequest c method "/templates" None).
  { intro method. rewrite Sprintf_template_empty.
    apply newRequest_same_path, endpointPath_template_empty. }
  assert (Hg : newRequest c "GET"
                 (GoFmt.Sprintf "/templates/%s/tests" [GoFmt.VString ""])
                 None
               = newRequest c "GET" "/templates/tests" None).
  { rewrite Sprintf_tests_empty.
    apply newRequest_same_path, endpointPath_tests_empty. }
  repeat split.
  - rewrite Sprintf_template_empty. apply endpointPath_template_empty.
  - rewrite Sprintf_tests_empty. apply endpointPath_tests_empty.
  - intros req Hreq. apply DiscardTemplate_sends. now rewrite Ht.
  - intros req Hreq. apply FinalizeTemplate_sends. now rewrite Ht.
  - intros req Hreq. apply GetTestDatabase_sends. now rewrite Hg.
  - intros hash post delete Hpost Hdelete.
    destruct (InitializeTemplate_sends c hash s post Hpost) as (r1 & H1).
    destruct (DiscardTemplate_sends c "" s delete) as (r2 & H2);
      [now rewrite Ht|].
    now exists r1, r2.
Qed.


End Requests.

(* ================================================================== *)
(** * The shape of the request paths *)
(* ================================================================== *)

Module PathShape.

Import GoPath GoPathFacts.

Lemma length_append (s t : string) :
  String.length (s ++ t) = String.length s + String.length t.
Proof. induction s as [|c s IH]; simpl; [reflexivity | now rewrite IH]. Qed.

Lemma substring_append (s t : string) :
  substring 0 (String.length s) (s ++ t) = s.
Proof.
  induction s as [|c s IH]; simpl.
  - destruct t; reflexivity.
  - now rewrite IH.
Qed.

Lemma length_substring (n : nat) (s : string) :
  n <= String.length s -> String.length (substring 0 n s) = n.
Proof.
  revert s. induction n as [|n IH]; intros s Hn.
  - destruct s; reflexivity.
  - destruct s as [|c s]; simpl in *; [lia|]. rewrite IH; lia.
Qed.

Lemma index_append (s t : string) (j : nat) :
  index (s ++ t) (String.length s + j) = index t j.
Proof.
  unfold index. rewrite Nat.add_comm. now rewrite <- append_correct2.
Qed.

Lemma no_slash_index (s : string) (j : nat) :
  no_slash s = true -> Ascii.eqb (index s j) "/" = false.
Proof.
  revert j. induction s as [|c s IH]; intros j Hs.
  - unfold index. destruct j; reflexivity.
  - simpl in Hs. apply andb_true_iff in Hs. destruct Hs as [Hc Hs].
    destruct j as [|j].
    + unfold index. simpl. unfold is_slash in Hc.
      now apply negb_true_iff in Hc.
    + specialize (IH j Hs). unfold index in *. simpl. exact IH.
Qed.

Lemma no_slash_append (s t : string) :
  no_slash (s ++ t) = no_slash s && no_slash t.
Proof.
  induction s as [|c s IH]; simpl; [reflexivity|].
  now rewrite IH, andb_assoc.
Qed.

(** ** Backtracking *)

Lemma backtrack_le (dotdot : nat) (out : string) (w : nat) :
  backtrack dotdot out w <= w.
Proof.
  induction w as [|w IH]; simpl; [lia|].
  destruct ((dotdot <? S w) && negb (Ascii.eqb (index out (S w)) "/")); lia.
Qed.

Lemma backtrack_ge (dotdot : nat) (out : string) (w : nat) :
  dotdot <= w -> dotdot <= backtrack dotdot out w.
Proof.
  induction w as [|w IH]; intro Hw; simpl; [lia|].
  destruct (dotdot <? S w) eqn:Hlt; simpl; [|lia].
  apply Nat.ltb_lt in Hlt.
  destruct (negb (Ascii.eqb (index out (S w)) "/")); [apply IH|]; lia.
Qed.

(** Backtracking over bytes that are not slashes stops where it may not go
    on: at [dotdot], or at a slash. *)
Lemma backtrack_stops (dotdot : nat) (buf : string) (base k : nat) :
  (forall j, 1 <= j <= k -> Ascii.eqb (index buf (base + j)) "/" = false) ->
  dotdot <= base ->
  dotdot = base \/ Ascii.eqb (index buf base) "/" = true ->
  backtrack dotdot buf (base + k) = base.
Proof.
  intros Hseg Hdd Hstop. induction k as [|k IH].
  - rewrite Nat.add_0_r. destruct base as [|b]; [reflexivity|].
    simpl. destruct Hstop as [-> | Hs].
    + now rewrite Nat.ltb_irrefl.
    + rewrite Hs. simpl. now rewrite andb_false_r.
  - rewrite Nat.add_succ_r. simpl.
    assert (Hlt : (dotdot <? S (base + k)) = true)
      by (apply Nat.ltb_lt; lia).
    rewrite Hlt. rewrite <- Nat.add_succ_r, Hseg by lia. simpl.
    apply IH. intros j Hj. apply Hseg. lia.
Qed.

Lemma add_slash_length (rooted : bool) (out : string) :
  String.length out <= String.length (add_slash rooted out).
Proof.
  unfold add_slash.
  destruct ((rooted && negb (String.length out =? 1))
            || (negb rooted && negb (String.length out =? 0))).
  - rewrite length_append. lia.
  - lia.
Qed.

(** A [..] element gives back what the element before it took: the buffer
    and [dotdot] are as they were before that element was written. *)
Lemma dotdot_step_undoes (rooted : bool) (out seg : string) (dotdot : nat) :
  loop_state_ok rooted out dotdot ->
  no_slash seg = true -> seg <> "" ->
  dotdot_step rooted (add_slash rooted out ++ seg) dotdot = (out, dotdot).
Proof.
  intros [Hdd Hroot] Hseg Hne.
  assert (Hlen : 1 <= String.length seg)
    by (destruct seg; [contradiction | simpl; lia]).
  unfold dotdot_step, add_slash.
  destruct ((rooted && negb (String.length out =? 1))
            || (negb rooted && negb (String.length out =? 0))) eqn:Hadd.
  - (* a slash was written before the element *)
    rewrite append_assoc, !length_append. cbn [String.length].
    assert (Hlt : (dotdot <? String.length out + (1 + String.length seg))
                  = true) by (apply Nat.ltb_lt; lia).
    rewrite Hlt. f_equal.
    replace (String.length out + (1 + String.length seg) - 1)
      with (String.length out + String.length seg) by lia.
    rewrite backtrack_stops; [apply substring_append | | exact Hdd |].
    + intros j Hj.
      replace (String.length out + j)
        with (String.length out + (1 + (j - 1))) by lia.
      rewrite index_append. cbn [append].
      replace (1 + (j - 1)) with (S (j - 1)) by lia.
      unfold index. cbn [get]. now apply (no_slash_index seg (j - 1)).
    + right. rewrite <- (Nat.add_0_r (String.length out)), index_append.
      reflexivity.
  - (* the element is the first of the buffer *)
    assert (Hbase : dotdot = String.length out).
    { apply orb_false_iff in Hadd. destruct Hadd as [H1 H2].
      destruct rooted; simpl in *.
      - apply negb_false_iff, Nat.eqb_eq in H1. specialize (Hroot eq_refl).
        lia.
      - apply negb_false_iff, Nat.eqb_eq in H2. lia. }
    rewrite length_append.
    assert (Hlt : (dotdot <? String.length out + String.length seg) = true)
      by (apply Nat.ltb_lt; lia).
    rewrite Hlt. f_equal.
    replace (String.length out + String.length seg - 1)
      with (String.length out + (String.length seg - 1)) by lia.
    rewrite backtrack_stops; [apply substring_append | | lia | now left].
    intros j Hj. rewrite index_append. now apply no_slash_index.
Qed.

(** [dotdot_step] keeps the state of the loop well formed. *)
Lemma dotdot_step_ok (rooted : bool) (out : string) (dotdot : nat) :
  loop_state_ok rooted out dotdot ->
  loop_state_ok rooted (fst (dotdot_step rooted out dotdot))
                (snd (dotdot_step rooted out dotdot)).
Proof.
  intros [Hdd Hroot]. unfold dotdot_step.
  destruct (dotdot <? String.length out) eqn:Hlt.
  - apply Nat.ltb_lt in Hlt. cbn [fst snd]. split; [|exact Hroot].
    rewrite length_substring.
    + apply backtrack_ge. lia.
    + pose proof (backtrack_le dotdot out (String.length out - 1)). lia.
  - destruct rooted; cbn [negb fst snd].
    + split; assumption.
    + split; [apply le_n | discriminate].
Qed.

(** ** The loop, with its state kept well formed *)

Lemma copy_element_prefix_ok (rooted : bool) (dotdot : nat) (b : string) :
  forall o : string,
  exists (b' o' : string),
    String.length b' <= String.length b /\
    String.length o <= String.length o' /\
    forall t : string,
      copy_element rooted dotdot (b ++ String "/" t) o =
      clean_loop rooted (b' ++ String "/" t) o' dotdot.
Proof.
  induction b as [|d b IH]; intro o.
  - exists "", o. split; [apply le_n | split; [apply le_n |]].
    intro t. reflexivity.
  - destruct (is_slash d) eqn:Hd.
    + exists (String d b), o. split; [apply le_n | split; [apply le_n |]].
      intro t. rewrite append_cons, copy_element_cons, Hd. reflexivity.
    + destruct (IH (o ++ String d "")) as (b' & o' & Hlen & Ho & Heq).
      exists b', o'. split; [simpl; lia | split].
      * rewrite length_append in Ho. lia.
      * intro t. rewrite append_cons, copy_element_cons, Hd. apply Heq.
Qed.

Lemma clean_loop_prefix_ok (n : nat) :
  forall (b : string), String.length b <= n ->
  forall (rooted : bool) (out : string) (dotdot : nat),
  loop_state_ok rooted out dotdot ->
  exists (out' : string) (dotdot' : nat),
    loop_state_ok rooted out' dotdot' /\
    forall t : string,
      clean_loop rooted (b ++ String "/" t) out dotdot =
      clean_loop rooted t out' dotdot'.
Proof.
  induction n as [|n IH]; intros b Hb rooted out dotdot Hok.
  - destruct b; [|simpl in Hb; lia].
    exists out, dotdot. split; [exact Hok | intro t; reflexivity].
  - destruct b as [|c b].
    { exists out, dotdot. split; [exact Hok | intro t; reflexivity]. }
    simpl in Hb. apply le_S_n in Hb.
    destruct (is_slash c) eqn:Hc.
    { destruct (IH b Hb rooted out dotdot Hok) as (o' & d' & Hok' & H').
      exists o', d'. split; [exact Hok'|]. intro t.
      rewrite append_cons, clean_loop_step. cbv zeta.
      rewrite Hc. apply H'. }
    assert (Helement :
      exists o' d',
        loop_state_ok rooted o' d' /\
        forall t,
          copy_element rooted dotdot (b ++ String "/" t)
            (add_slash rooted out ++ String c "") =
          clean_loop rooted t o' d').
    { destruct (copy_element_prefix_ok rooted dotdot b
                  (add_slash rooted out ++ String c ""))
        as (b' & o1 & Hlen & Ho1 & Hcopy).
      assert (Hok1 : loop_state_ok rooted o1 dotdot).
      { destruct Hok as [Hdd Hroot]. split; [|exact Hroot].
        rewrite length_append in Ho1.
        pose proof (add_slash_length rooted out). lia. }
      destruct (IH b' (Nat.le_trans _ _ _ Hlen Hb) rooted o1 dotdot Hok1)
        as (o' & d' & Hok' & H').
      exists o', d'. split; [exact Hok'|]. intro t. rewrite Hcopy. apply H'. }
    destruct (is_dot c && end_or_slash (b ++ "/")) eqn:Hdot.
    { destruct (IH b Hb rooted out dotdot Hok) as (o' & d' & Hok' & H').
      exists o', d'. split; [exact Hok'|]. intro t.
      rewrite append_cons, clean_loop_step. cbv zeta.
      rewrite Hc, end_or_slash_prefix, Hdot. apply H'. }
    destruct b as [|d b2].
    { destruct Helement as (o' & d' & Hok' & H').
      exists o', d'. split; [exact Hok'|]. intro t.
      rewrite append_cons, clean_loop_step. cbv zeta.
      rewrite Hc, end_or_slash_prefix, Hdot.
      cbn [append]. change (is_dot "/") with false.
      rewrite andb_false_r. cbn [andb]. exact (H' t). }
    destruct (is_dot c && is_dot d && end_or_slash (b2 ++ "/")) eqn:Hdd.
    { pose proof (dotdot_step_ok rooted out dotdot Hok) as Hstep_ok.
      destruct (dotdot_step rooted out dotdot) as [o1 d1] eqn:Hstep.
      cbn [fst snd] in Hstep_ok.
      assert (Hb2 : String.length b2 <= n) by (simpl in Hb; lia).
      destruct (IH b2 Hb2 rooted o1 d1 Hstep_ok) as (o' & d' & Hok' & H').
      exists o', d'. split; [exact Hok'|]. intro t.
      rewrite append_cons, clean_loop_step. cbv zeta.
      rewrite Hc, end_or_slash_prefix, Hdot.
      rewrite append_cons. cbv iota.
      rewrite end_or_slash_prefix, Hdd, Hstep. apply H'. }
    { destruct Helement as (o' & d' & Hok' & H').
      exists o', d'. split; [exact Hok'|]. intro t.
      rewrite append_cons, clean_loop_step. cbv zeta.
      rewrite Hc, end_or_slash_prefix, Hdot.
      rewrite append_cons. cbv iota.
      rewrite end_or_slash_prefix, Hdd.
      rewrite <- append_cons. apply (H' t). }
Qed.

(** The copy of an element that holds no slash runs to its end. *)
Lemma copy_element_no_slash (rooted : bool) (dotdot : nat) (seg : string) :
  no_slash seg = true ->
  forall (t o : string),
    end_or_slash t = true ->
    copy_element rooted dotdot (seg ++ t) o
    = clean_loop rooted t (o ++ seg) dotdot.
Proof.
  intro Hseg. induction seg as [|d seg IH]; intros t o Ht.
  - cbn [append]. rewrite append_nil_r.
    destruct t as [|e t]; [reflexivity|].
    rewrite copy_element_cons. cbn [end_or_slash] in Ht. now rewrite Ht.
  - simpl in Hseg. apply andb_true_iff in Hseg. destruct Hseg as [Hd Hseg].
    apply negb_true_iff in Hd.
    rewrite append_cons, copy_element_cons, Hd, (IH Hseg t _ Ht).
    now rewrite append_assoc.
Qed.

(** A plain segment is written as it is, after a slash if the buffer needs
    one. *)
Lemma clean_loop_plain_segment (rooted : bool) (h t out : string)
      (dotdot : nat) :
  plain_segment h = true ->
  end_or_slash t = true ->
  clean_loop rooted (h ++ t) out dotdot
  = clean_loop rooted t (add_slash rooted out ++ h) dotdot.
Proof.
  unfold plain_segment. intros Hp Ht.
  apply andb_true_iff in Hp. destruct Hp as [Hp Hns].
  apply andb_true_iff in Hp. destruct Hp as [Hp Hdd].
  apply andb_true_iff in Hp. destruct Hp as [Hne Hd].
  destruct h as [|c tl]; [discriminate Hne|].
  simpl in Hns. apply andb_true_iff in Hns. destruct Hns as [Hc Hns].
  apply negb_true_iff in Hc.
  assert (Helement :
    copy_element rooted dotdot (tl ++ t) (add_slash rooted out ++ String c "")
    = clean_loop rooted t (add_slash rooted out ++ String c tl) dotdot).
  { rewrite (copy_element_no_slash rooted dotdot tl Hns t _ Ht).
    now rewrite append_assoc. }
  rewrite append_cons, clean_loop_step. cbv zeta. rewrite Hc.
  destruct tl as [|d tl2].
  - (* one byte, which is not a dot *)
    assert (Hnd : is_dot c = false).
    { unfold is_dot. destruct (Ascii.eqb_spec c "."); [|reflexivity].
      subst c. discriminate Hd. }
    rewrite Hnd. cbn [andb append].
    destruct t; exact Helement.
  - simpl in Hns. apply andb_true_iff in Hns. destruct Hns as [Hd' Hns].
    apply negb_true_iff in Hd'.
    cbn [append end_or_slash]. rewrite Hd', andb_false_r.
    destruct (is_dot c && is_dot d) eqn:Hdots.
    + (* two dots in front: a third byte follows, and it is not a slash *)
      destruct tl2 as [|e tl3].
      * exfalso. apply andb_true_iff in Hdots. destruct Hdots as [H1 H2].
        unfold is_dot in H1, H2.
        apply Ascii.eqb_eq in H1. apply Ascii.eqb_eq in H2. subst c d.
        discriminate Hdd.
      * simpl in Hns. apply andb_true_iff in Hns. destruct Hns as [He _].
        apply negb_true_iff in He.
        cbn [append end_or_slash]. rewrite He. cbn [andb]. exact Helement.
    + cbn [andb]. exact Helement.
Qed.

Lemma clean_loop_slash (rooted : bool) (t out : string) (dotdot : nat) :
  clean_loop rooted (String "/" t) out dotdot = clean_loop rooted t out dotdot.
Proof. reflexivity. Qed.

Lemma add_slash_written (rooted : bool) (out : string) :
  2 <= String.length out -> add_slash rooted out = out ++ "/".
Proof.
  intro Hlen. unfold add_slash.
  destruct (String.length out) as [|[|n]]; [lia | lia |].
  destruct rooted; reflexivity.
Qed.

(** The end of the loop on [/templates], and on what a plain hash and its
    tests add to it. *)
Lemma clean_loop_templates (rooted : bool) (out : string) (dotdot : nat) :
  clean_loop rooted "/templates" out dotdot
  = add_slash rooted out ++ "templates".
Proof.
  rewrite clean_loop_slash.
  exact (clean_loop_plain_segment rooted "templates" "" out dotdot
           eq_refl eq_refl).
Qed.

Lemma templates_written (rooted : bool) (out : string) :
  2 <= String.length (add_slash rooted out ++ "templates").
Proof. rewrite length_append. cbn [String.length]. lia. Qed.

Lemma clean_loop_templates_then (rooted : bool) (t out : string)
      (dotdot : nat) :
  clean_loop rooted ("/templates/" ++ t) out dotdot
  = clean_loop rooted t (add_slash rooted out ++ "templates") dotdot.
Proof.
  change ("/templates/" ++ t) with (String "/" ("templates" ++ String "/" t)).
  rewrite clean_loop_slash.
  rewrite (clean_loop_plain_segment rooted "templates" (String "/" t) out
             dotdot eq_refl eq_refl).
  apply clean_loop_slash.
Qed.

Lemma clean_loop_segment_end (rooted : bool) (h out : string) (dotdot : nat) :
  plain_segment h = true ->
  2 <= String.length out ->
  clean_loop rooted h out dotdot = out ++ "/" ++ h.
Proof.
  intros Hp Hlen.
  rewrite <- (append_nil_r h) at 1.
  rewrite (clean_loop_plain_segment rooted h "" out dotdot Hp eq_refl).
  cbn [clean_loop]. rewrite add_slash_written by exact Hlen.
  apply append_assoc.
Qed.

Lemma clean_loop_segment_then (rooted : bool) (h t out : string)
      (dotdot : nat) :
  plain_segment h = true ->
  2 <= String.length out ->
  clean_loop rooted (h ++ String "/" t) out dotdot
  = clean_loop rooted t (out ++ "/" ++ h) dotdot.
Proof.
  intros Hp Hlen.
  rewrite (clean_loop_plain_segment rooted h (String "/" t) out dotdot Hp
             eq_refl).
  rewrite clean_loop_slash, add_slash_written by exact Hlen.
  now rewrite append_assoc.
Qed.

(** [/templates/..] is read as nothing at all. *)
Lemma clean_loop_templates_dotdot (rooted : bool) (t out : string)
      (dotdot : nat) :
  loop_state_ok rooted out dotdot ->
  clean_loop rooted ("/templates/../" ++ t) out dotdot
  = clean_loop rooted t out dotdot.
Proof.
  intro Hok.
  change ("/templates/../" ++ t) with ("/templates/" ++ ("../" ++ t)).
  rewrite clean_loop_templates_then.
  change ("../" ++ t) with (String "." (String "." (String "/" t))).
  rewrite clean_loop_step. cbv zeta.
  change (is_slash ".") with false. change (is_dot ".") with true.
  cbn [andb end_or_slash].
  change (is_slash ".") with false. change (is_slash "/") with true.
  cbv iota.
  rewrite (dotdot_step_undoes rooted out "templates" dotdot Hok eq_refl)
    by discriminate.
  apply clean_loop_slash.
Qed.

(** ** From the loop to [path.Join] *)

Lemma length_eqb_append (s t : string) :
  s <> "" -> (String.length (s ++ t) =? 0) = false.
Proof. intro Hs. destruct s; [contradiction | reflexivity]. Qed.

Lemma length_eqb_nonempty (s : string) :
  s <> "" -> (String.length s =? 0) = false.
Proof. intro Hs. destruct s; [contradiction | reflexivity]. Qed.

(** The loop from the state in which [path.Clean] starts it. *)
Lemma Clean_start (c : ascii) (b : string) :
  exists (rooted : bool) (b0 out : string) (dotdot : nat),
    loop_state_ok rooted out dotdot
    /\ String.length b0 <= String.length (String c b)
    /\ forall t,
         Clean (String c b ++ String "/" t)
         = let o := clean_loop rooted (b0 ++ String "/" t) out dotdot in
           if String.length o =? 0 then "." else o.
Proof.
  destruct (is_slash c) eqn:Hc.
  - exists true, b, "/", 1. split; [split; intros; apply le_n|].
    split; [simpl; lia|]. intro t.
    rewrite append_cons. unfold Clean. now rewrite Hc.
  - exists false, (String c b), "", 0.
    split; [split; [apply le_n | discriminate]|].
    split; [apply le_n|]. intro t.
    rewrite append_cons. unfold Clean. rewrite Hc.
    now rewrite <- append_cons.
Qed.

(** Two endpoints that the loop reads alike from every well formed state
    join alike to every base. *)
Lemma Join_endpoints_agree_ok (p e1 e2 : string) :
  e1 <> "" -> e2 <> "" ->
  (forall rooted out dotdot,
      loop_state_ok rooted out dotdot ->
      clean_loop rooted e1 out dotdot = clean_loop rooted e2 out dotdot) ->
  Clean e1 = Clean e2 ->
  Join [p; e1] = Join [p; e2].
Proof.
  intros H1 H2 Hends Hclean. rewrite !Join_base by assumption.
  destruct (String.eqb_spec p "") as [-> | Hp]; [exact Hclean|].
  destruct p as [|c b]; [contradiction|].
  destruct (Clean_start c b) as (rooted & b0 & out & dd & Hok & Hlen & HC).
  rewrite !HC. cbv zeta.
  destruct (clean_loop_prefix_ok (String.length b0) b0 (le_n _) rooted out dd
                                 Hok)
    as (o' & d' & Hok' & H').
  now rewrite !H', (Hends rooted o' d' Hok').
Qed.

(** An endpoint that the loop reads as another one followed by more joins
    to every base as the other one followed by the same. *)
Lemma Join_endpoints_extend (p e1 e2 more : string) :
  e1 <> "" -> e2 <> "" ->
  (forall rooted out dotdot,
      exists written,
        written <> ""
        /\ clean_loop rooted e2 out dotdot = written
        /\ clean_loop rooted e1 out dotdot = written ++ more) ->
  Clean e1 = Clean e2 ++ more ->
  Join [p; e1] = Join [p; e2] ++ more.
Proof.
  intros H1 H2 Hends Hclean. rewrite !Join_base by assumption.
  destruct (String.eqb_spec p "") as [-> | Hp]; [exact Hclean|].
  destruct p as [|c b]; [contradiction|].
  destruct (Clean_start c b) as (rooted & b0 & out & dd & _ & _ & HC).
  rewrite !HC. cbv zeta.
  destruct (clean_loop_prefix (String.length b0) b0 (le_n _) rooted out dd)
    as (o' & d' & H').
  rewrite !H'.
  destruct (Hends rooted o' d') as (written & Hw & He2 & He1).
  rewrite He1, He2.
  now rewrite length_eqb_append, length_eqb_nonempty by exact Hw.
Qed.

Lemma append_cancel_l (s t1 t2 : string) : s ++ t1 = s ++ t2 -> t1 = t2.
Proof.
  induction s as [|c s IH]; simpl; intro Heq; [exact Heq|].
  apply IH. now inversion Heq.
Qed.

(** ** Decimal numbers are plain segments *)

Lemma plain_of_head (c : ascii) (r : string) :
  is_slash c = false -> is_dot c = false -> no_slash r = true ->
  plain_segment (String c r) = true.
Proof.
  intros Hs Hd Hr. unfold plain_segment. unfold is_dot in Hd.
  cbn [String.eqb no_slash]. rewrite Hd, Hs, Hr. reflexivity.
Qed.

Lemma uint_no_slash (d : Decimal.uint) :
  no_slash (NilEmpty.string_of_uint d) = true.
Proof. induction d; simpl; try reflexivity; exact IHd. Qed.

Lemma uint_plain (d : Decimal.uint) :
  plain_segment (NilZero.string_of_uint d) = true.
Proof.
  destruct d; try reflexivity;
    (apply plain_of_head; [reflexivity | reflexivity | apply uint_no_slash]).
Qed.

Lemma decimal_plain (z : Z) : plain_segment (GoFmt.decimal z) = true.
Proof.
  unfold GoFmt.decimal. destruct z as [|p|p]; cbn [Z.to_int].
  - reflexivity.
  - apply uint_plain.
  - cbn [NilZero.string_of_int].
    apply plain_of_head; [reflexivity | reflexivity |].
    destruct (Pos.to_uint p); first [reflexivity | apply uint_no_slash].
Qed.

End PathShape.

Section RequestPaths.

Import GoPath GoPathFacts PathShape.

Context `{Collaborators}.

Lemma Sprintf_template (hash : string) :
  GoFmt.Sprintf "/templates/%s" [GoFmt.VString hash] = "/templates/" ++ hash.
Proof. cbn. now rewrite append_nil_r. Qed.

Lemma Sprintf_tests (hash : string) :
  GoFmt.Sprintf "/templates/%s/tests" [GoFmt.VString hash]
  = "/templates/" ++ hash ++ "/tests".
Proof. reflexivity. Qed.

Lemma Sprintf_test (hash : string) (id : Z) :
  GoFmt.Sprintf "/templates/%s/tests/%d" [GoFmt.VString hash; GoFmt.VInt id]
  = "/templates/" ++ hash ++ "/tests/" ++ GoFmt.decimal id.
Proof. cbn. now rewrite append_nil_r. Qed.

(** The path of an endpoint under [/templates] that goes on with plain
    segments: the path of the collection followed by [more]. *)
Lemma endpointPath_under_templates (c : Client) (rest more : string) :
  (forall rooted out dotdot,
      2 <= String.length out ->
      clean_loop rooted rest out dotdot = out ++ more) ->
  endpointPath c ("/templates/" ++ rest)
  = endpointPath c "/templates" ++ more.
Proof.
  intro Hrest. unfold endpointPath.
  assert (Hloop : forall rooted out dotdot,
             clean_loop rooted ("/templates/" ++ rest) out dotdot
             = (add_slash rooted out ++ "templates") ++ more).
  { intros rooted out dotdot. rewrite clean_loop_templates_then.
    apply Hrest, templates_written. }
  apply Join_endpoints_extend; [discriminate | discriminate | |].
  - intros rooted out dotdot.
    exists (add_slash rooted out ++ "templates").
    split; [|split; [apply clean_loop_templates | apply Hloop]].
    intro Habs. apply (f_equal String.length) in Habs.
    pose proof (templates_written rooted out). simpl in Habs. lia.
  - change (Clean ("/templates/" ++ rest))
      with (let o := clean_loop true ("/templates/" ++ rest) "/" 1 in
            if String.length o =? 0 then "." else o).
    cbv zeta. rewrite Hloop. reflexivity.
Qed.

Lemma endpointPath_plain_template (c : Client) (h : string) :
  plain_segment h = true ->
  endpointPath c ("/templates/" ++ h)
  = endpointPath c "/templates" ++ "/" ++ h.
Proof.
  intro Hp. apply endpointPath_under_templates.
  intros rooted out dotdot Hlen. now apply clean_loop_segment_end.
Qed.

Lemma endpointPath_plain_tests (c : Client) (h : string) :
  plain_segment h = true ->
  endpointPath c ("/templates/" ++ h ++ "/tests")
  = endpointPath c "/templates" ++ "/" ++ h ++ "/tests".
Proof.
  intro Hp. apply endpointPath_under_templates.
  intros rooted out dotdot Hlen.
  change (h ++ "/tests") with (h ++ String "/" "tests").
  rewrite clean_loop_segment_then by assumption.
  rewrite clean_loop_segment_end; [| reflexivity |].
  - now rewrite !append_assoc.
  - rewrite length_append. lia.
Qed.

Lemma endpointPath_plain_test (c : Client) (h : string) (id : Z) :
  plain_segment h = true ->
  endpointPath c ("/templates/" ++ h ++ "/tests/" ++ GoFmt.decimal id)
  = endpointPath c "/templates" ++ "/" ++ h ++ "/tests/" ++ GoFmt.decimal id.
Proof.
  intro Hp. apply endpointPath_under_templates.
  intros rooted out dotdot Hlen.
  change (h ++ "/tests/" ++ GoFmt.decimal id)
    with (h ++ String "/" ("tests" ++ String "/" (GoFmt.decimal id))).
  rewrite clean_loop_segment_then by assumption.
  rewrite clean_loop_segment_then;
    [| reflexivity | rewrite length_append; lia].
  rewrite clean_loop_segment_end;
    [| apply decimal_plain | rewrite !length_append; lia].
  now rewrite !append_assoc.
Qed.

(** X1. For a hash that is one plain path segment, the paths of the
    operations on a template are those of the resource layout: the path of
    the collection followed by the hash, by the hash and [tests], and by the
    hash, [tests] and the identifier in decimal. *)
Theorem plain_hash_paths (c : Client) (hash : string) (id : Z) :
  plain_segment hash = true ->
  let collection := endpointPath c "/templates" in
  endpointPath c (GoFmt.Sprintf "/templates/%s" [GoFmt.VString hash])
  = collection ++ "/" ++ hash
  /\ endpointPath c
       (GoFmt.Sprintf "/templates/%s/tests" [GoFmt.VString hash])
     = collection ++ "/" ++ hash ++ "/tests"
  /\ endpointPath c
       (GoFmt.Sprintf "/templates/%s/tests/%d"
          [GoFmt.VString hash; GoFmt.VInt id])
     = collection ++ "/" ++ hash ++ "/tests/" ++ GoFmt.decimal id.
Proof.
  intros Hp collection. subst collection.
  rewrite Sprintf_template, Sprintf_tests, Sprintf_test.
  split; [|split].
  - now apply endpointPath_plain_template.
  - now apply endpointPath_plain_tests.
  - now apply endpointPath_plain_test.
Qed.

(** X2. Two plain hashes with the same template path are the same hash:
    distinct plain hashes never share a resource. *)
Theorem plain_hash_paths_injective (c : Client) (h1 h2 : string) :
  plain_segment h1 = true ->
  plain_segment h2 = true ->
  endpointPath c (GoFmt.Sprintf "/templates/%s" [GoFmt.VString h1])
  = endpointPath c (GoFmt.Sprintf "/templates/%s" [GoFmt.VString h2]) ->
  h1 = h2.
Proof.
  intros H1 H2. rewrite !Sprintf_template.
  rewrite !endpointPath_plain_template by assumption.
  intro Heq. apply append_cancel_l in Heq. now inversion Heq.
Qed.

Lemma endpointPath_dotdot (c : Client) (t : string) :
  endpointPath c ("/templates/../" ++ t) = endpointPath c ("/" ++ t).
Proof.
  unfold endpointPath.
  apply Join_endpoints_agree_ok; [discriminate | discriminate | |].
  - intros rooted out dotdot Hok.
    rewrite clean_loop_templates_dotdot by exact Hok.
    symmetry. apply clean_loop_slash.
  - change (Clean ("/templates/../" ++ t))
      with (let o := clean_loop true ("/templates/../" ++ t) "/" 1 in
            if String.length o =? 0 then "." else o).
    cbv zeta. rewrite clean_loop_templates_dotdot; [reflexivity|].
    split; intros; apply le_n.
Qed.

(** After the request is built, the exchange is the first thing an
    operation asks for. *)
Ltac first_event Hreq :=
  unfold bind; rewrite Hreq;
  match goal with
  | |- context [do ?c ?req ?v ?s] =>
      let rest := fresh "rest" in
      let Ht := fresh "Ht" in
      destruct (do_trace c req v s) as (rest & Ht & _);
      destruct (do c req v s) as [[r0 v0] s0];
      cbn [fst snd] in Ht;
      exists rest; destruct r0; unfold ret;
      repeat match goal with
             | |- context [if ?b then _ else _] => destruct b
             end;
      exact Ht
  end.

Lemma ResetAllTracking_sends (c : Client) (s : St) (req : http.Request) :
  newRequest c "DELETE" "/admin/templates" None = inr req ->
  exists rest,
    trace (snd (ResetAllTracking c s)) = (trace s ++ EvDo req :: rest)%list.
Proof. intro Hreq. unfold ResetAllTracking. first_event Hreq. Qed.

Lemma DiscardTemplate_first_event (c : Client) (hash : string) (s : St)
      (req : http.Request) :
  newRequest c "DELETE"
    (GoFmt.Sprintf "/templates/%s" [GoFmt.VString hash]) None = inr req ->
  exists rest,
    trace (snd (DiscardTemplate c hash s)) = (trace s ++ EvDo req :: rest)%list.
Proof. intro Hreq. unfold DiscardTemplate. first_event Hreq. Qed.

(** X3. The hash is put into the path as it is: a hash that begins with
    [../] leaves the collection of the templates, for every base path. The
    template path of [../t] is the path of [/t], and its tests path is the path
    of [/t/tests]; so [DiscardTemplate] of the hash [../admin/templates] sends
    the very request that [ResetAllTracking] sends. *)
Theorem dotdot_hash_leaves_templates (c : Client) (s : St) :
  (forall t,
      endpointPath c
        (GoFmt.Sprintf "/templates/%s" [GoFmt.VString ("../" ++ t)])
      = endpointPath c ("/" ++ t))
  /\ (forall t,
         endpointPath c
           (GoFmt.Sprintf "/templates/%s/tests" [GoFmt.VString ("../" ++ t)])
         = endpointPath c ("/" ++ t ++ "/tests"))
  /\ (forall req,
         newRequest c "DELETE" "/admin/templates" None = inr req ->
         exists rest1 rest2,
           trace (snd (DiscardTemplate c "../admin/templates" s))
           = (trace s ++ EvDo req :: rest1)%list
           /\ trace (snd (ResetAllTracking c s))
              = (trace s ++ EvDo req :: rest2)%list).
Proof.
  split; [|split].
  - intro t. rewrite Sprintf_template. apply (endpointPath_dotdot c t).
  - intro t. rewrite Sprintf_tests.
    apply (endpointPath_dotdot c (t ++ "/tests")).
  - intros req Hreq.
    destruct (ResetAllTracking_sends c s req Hreq) as (r2 & H2).
    destruct (DiscardTemplate_first_event c "../admin/templates" s req)
      as (r1 & H1).
    + rewrite <- Hreq. apply newRequest_same_path.
      rewrite Sprintf_template. apply (endpointPath_dotdot c "admin/templates").
    + now exists r1, r2.
Qed.

End RequestPaths.

(* ================================================================== *)
(** * What an operation does to the state *)
(* ================================================================== *)

Section Footprint.

Import models.

Context `{Collaborators}.

Lemma exchanges_app (tr1 tr2 : list Event) :
  exchanges (tr1 ++ tr2) = exchanges tr1 + exchanges tr2.
Proof. unfold exchanges. now rewrite filter_app, length_app. Qed.

Lemma body_closes_app (tr1 tr2 : list Event) :
  body_closes (tr1 ++ tr2) = body_closes tr1 + body_closes tr2.
Proof. unfold body_closes. now rewrite filter_app, length_app. Qed.

Lemma populates_app (tr1 tr2 : list Event) :
  populates (tr1 ++ tr2) = populates tr1 + populates tr2.
Proof. unfold populates. now rewrite filter_app, length_app. Qed.

(** The state after [do], whatever the destination and the body. *)
Lemma do_footprint {T : Type} `{Unmarshal T} (c : Client)
      (req : http.Request) (v : option T) (s : St) :
  snd (do c req v s)
  = {| env := snd (client c req (env s));
       trace := (trace s ++ exchange_events c req (env s))%list |}.
Proof.
  unfold exchange_events.
  destruct (do_cases c req v s)
    as [(m & w' & Hc & ->) | [(resp & w' & Hc & _ & ->)
                            | (resp & w' & dst & Hc & _ & _ & ->)]];
    rewrite Hc; reflexivity.
Qed.

(** Opens an operation on its request, then on the state its exchange
    leaves. *)
Ltac footprint :=
  unfold bind, operation_world, operation_events;
  match goal with
  | |- context [newRequest ?c ?m ?e ?b] =>
      destruct (newRequest c m e b) as [err0 | req0]
  end;
  [ unfold ret; cbn [snd]; rewrite app_nil_r; symmetry; apply state_eta
  | match goal with
    | |- context [do ?c ?req ?v ?s] =>
        let Hf := fresh "Hf" in
        pose proof (do_footprint c req v s) as Hf;
        destruct (do c req v s) as [[r0 v0] s0];
        cbn [snd] in Hf; rewrite <- Hf;
        destruct r0; unfold ret;
        repeat match goal with
               | |- context [if ?b then _ else _] => destruct b
               end;
        reflexivity
    end ].

Lemma call_eq {A : Type} (ev : Event) (f : world -> A * world) (s : St) :
  call ev f s = (fst (f (env s)), recorded s ev (snd (f (env s)))).
Proof. unfold call, recorded. now destruct (f (env s)). Qed.

Lemma InitializeTemplate_footprint (c : Client) (hash : string) (s : St) :
  snd (InitializeTemplate c hash s)
  = {| env := operation_world c
                (newRequest c "POST" "/templates" (Some [("hash", hash)]))
                (env s);
       trace := (trace s
                 ++ operation_events c
                      (newRequest c "POST" "/templates"
                         (Some [("hash", hash)])) (env s))%list |}.
Proof. unfold InitializeTemplate. footprint. Qed.

Lemma FinalizeTemplate_footprint (c : Client) (hash : string) (s : St) :
  snd (FinalizeTemplate c hash s)
  = {| env := operation_world c
                (newRequest c "PUT"
                   (GoFmt.Sprintf "/templates/%s" [GoFmt.VString hash]) None)
                (env s);
       trace := (trace s
                 ++ operation_events c
                      (newRequest c "PUT"
                         (GoFmt.Sprintf "/templates/%s" [GoFmt.VString hash])
                         None) (env s))%list |}.
Proof. unfold FinalizeTemplate. footprint. Qed.

Lemma operation_events_counts (c : Client) (r : error + http.Request)
      (w : world) :
  exchanges (operation_events c r w) <= 1
  /\ populates (operation_events c r w) = 0
  /\ closes (operation_events c r w) = 0.
Proof.
  unfold operation_events, exchange_events.
  destruct r as [e | req]; [repeat split; apply Nat.le_0_l|].
  destruct (fst (client c req w)); cbn; repeat split; lia.
Qed.

(** X4. Every operation that talks to the manager makes one exchange when
    its request can be built and none otherwise, whatever the answer: the
    state it leaves is the world as the transport left it and the trace
    extended by the request and, when the transport answered, by the closing
    of the body. Nothing is sent twice and no body is left open, also when
    the body does not decode. *)
Theorem operation_footprint (c : Client) (s : St) :
  let left_by (r : error + http.Request) : St :=
    {| env := operation_world c r (env s);
       trace := (trace s ++ operation_events c r (env s))%list |} in
  snd (ResetAllTracking c s)
  = left_by (newRequest c "DELETE" "/admin/templates" None)
  /\ (forall hash,
         snd (InitializeTemplate c hash s)
         = left_by (newRequest c "POST" "/templates"
                      (Some [("hash", hash)])))
  /\ (forall hash,
         snd (DiscardTemplate c hash s)
         = left_by (newRequest c "DELETE"
                      (GoFmt.Sprintf "/templates/%s" [GoFmt.VString hash])
                      None))
  /\ (forall hash,
         snd (FinalizeTemplate c hash s)
         = left_by (newRequest c "PUT"
                      (GoFmt.Sprintf "/templates/%s" [GoFmt.VString hash])
                      None))
  /\ (forall hash,
         snd (GetTestDatabase c hash s)
         = left_by (newRequest c "GET"
                      (GoFmt.Sprintf "/templates/%s/tests"
                         [GoFmt.VString hash]) None))
  /\ (forall hash id,
         snd (ReturnTestDatabase c hash id s)
         = left_by (newRequest c "DELETE"
                      (GoFmt.Sprintf "/templates/%s/tests/%d"
                         [GoFmt.VString hash; GoFmt.VInt id]) None))
  /\ (forall r w,
         exchanges (operation_events c r w) <= 1
         /\ body_closes (operation_events c r w)
            <= exchanges (operation_events c r w)).
Proof.
  intro left_by. subst left_by.
  split; [|split; [|split; [|split; [|split; [|split]]]]].
  - unfold ResetAllTracking. footprint.
  - intro hash. unfold InitializeTemplate. footprint.
  - intro hash. unfold DiscardTemplate. footprint.
  - intro hash. unfold FinalizeTemplate. footprint.
  - intro hash. unfold GetTestDatabase. footprint.
  - intros hash id. unfold ReturnTestDatabase. footprint.
  - intros r w. unfold operation_events, exchange_events.
    destruct r as [e | req]; [split; apply Nat.le_0_l|].
    destruct (fst (client c req w)); cbn; split; lia.
Qed.

(** The counts of a trace after [InitializeTemplate] and after
    [FinalizeTemplate]. *)
Lemma InitializeTemplate_counts (c : Client) (hash : string) (s : St) :
  let after := trace (snd (InitializeTemplate c hash s)) in
  exchanges after <= exchanges (trace s) + 1
  /\ populates after = populates (trace s)
  /\ closes after = closes (trace s).
Proof.
  cbv zeta. rewrite InitializeTemplate_footprint. cbn [trace].
  rewrite exchanges_app, populates_app, closes_app.
  match goal with
  | |- context [operation_events c ?r ?w] =>
      destruct (operation_events_counts c r w) as (He & Hp & Hc)
  end.
  lia.
Qed.

Lemma FinalizeTemplate_counts (c : Client) (hash : string) (s : St) :
  let after := trace (snd (FinalizeTemplate c hash s)) in
  exchanges after <= exchanges (trace s) + 1
  /\ populates after = populates (trace s)
  /\ closes after = closes (trace s).
Proof.
  cbv zeta. rewrite FinalizeTemplate_footprint. cbn [trace].
  rewrite exchanges_app, populates_app, closes_app.
  match goal with
  | |- context [operation_events c ?r ?w] =>
      destruct (operation_events_counts c r w) as (He & Hp & Hc)
  end.
  lia.
Qed.

(** X5. [SetupTemplate] makes at most two exchanges and runs the populate
    step once when [InitializeTemplate] succeeded and not at all otherwise;
    [SetupTemplateWithDBClient] makes at most two exchanges, runs the populate
    step at most once and closes at most one handle. *)
Theorem Setup_bounds (c : Client) (hash : string) (s : St) :
  (forall init : populate_fn,
      let after := trace (snd (SetupTemplate c hash init s)) in
      exchanges after <= exchanges (trace s) + 2
      /\ populates after
         = populates (trace s)
           + match snd (fst (InitializeTemplate c hash s)) with
             | None => 1
             | Some _ => 0
             end)
  /\ (forall init : populate_db_fn,
         let after := trace (snd (SetupTemplateWithDBClient c hash init s)) in
         exchanges after <= exchanges (trace s) + 2
         /\ populates after <= populates (trace s) + 1
         /\ closes after <= closes (trace s) + 1).
Proof.
  pose proof (InitializeTemplate_counts c hash s) as Hi. cbv zeta in Hi.
  split.
  - intro init. cbv zeta. unfold SetupTemplate, bind.
    destruct (InitializeTemplate c hash s) as [[template ierr] s1].
    cbn [fst snd] in *. destruct Hi as (He & Hp & _).
    destruct ierr as [e|].
    + assert (Hs :
        trace (snd (match e with
                    | ErrTemplateAlreadyInitialized => ret None
                    | _ => ret (Some e)
                    end s1)) = trace s1) by (destruct e; reflexivity).
      rewrite Hs. lia.
    + unfold call.
      destruct (init (ConnectionString (Config template)) (env s1))
        as [[e|] w2].
      * unfold ret. cbn [snd trace].
        rewrite exchanges_app, populates_app. cbn. lia.
      * match goal with
        | |- context [FinalizeTemplate c hash ?st] =>
            pose proof (FinalizeTemplate_counts c hash st) as Hf
        end.
        cbv zeta in Hf. cbn [trace] in Hf.
        rewrite exchanges_app, populates_app in Hf. cbn in Hf.
        destruct Hf as (Hfe & Hfp & _). lia.
  - intro init. cbv zeta. unfold SetupTemplateWithDBClient, bind.
    destruct (InitializeTemplate c hash s) as [[template ierr] s1].
    cbn [fst snd] in *. destruct Hi as (He & Hp & Hc).
    destruct ierr as [e|].
    + assert (Hs :
        trace (snd (match e with
                    | ErrTemplateAlreadyInitialized => ret None
                    | _ => ret (Some e)
                    end s1)) = trace s1) by (destruct e; reflexivity).
      rewrite Hs. lia.
    + rewrite call_eq. unfold recorded.
      destruct (sql_Open "postgres" (ConnectionString (Config template))
                         (env s1)) as [[m | db] w2]; cbn [fst snd].
      * unfold ret. cbn [snd trace].
        rewrite exchanges_app, populates_app, closes_app. cbn. lia.
      * unfold defer, bind, call, ret. cbn [env trace].
        destruct (DB_PingContext db w2) as [[m|] w3]; cbn [env trace].
        -- destruct (DB_Close db w3). cbn [snd trace].
           rewrite !exchanges_app, !populates_app, !closes_app. cbn. lia.
        -- destruct (init db w3) as [[e|] w4]; cbn [env trace].
           ++ destruct (DB_Close db w4). cbn [snd trace].
              rewrite !exchanges_app, !populates_app, !closes_app. cbn. lia.
           ++ match goal with
              | |- context [FinalizeTemplate c hash ?st] =>
                  pose proof (FinalizeTemplate_counts c hash st) as Hf;
                  destruct (FinalizeTemplate c hash st) as [ferr s5]
              end.
              cbv zeta in Hf. cbn [snd trace] in Hf.
              rewrite !exchanges_app, !populates_app, !closes_app in Hf.
              cbn in Hf. destruct Hf as (Hfe & Hfp & Hfc).
              destruct (DB_Close db (env s5)). cbn [snd trace].
              rewrite !exchanges_app, !populates_app, !closes_app. cbn. lia.
Qed.

(** X6. A failure before any answer comes back as it is, for every
    operation. When the request cannot be built, its error is returned and
    the state is untouched: nothing is sent. When the transport fails, its
    error is returned after that one attempt, and no body is closed. The
    entity handed back is the zero value in both cases. *)
Theorem failure_before_answer (c : Client) (s : St) :
  (forall err,
      (newRequest c "DELETE" "/admin/templates" None = inl err ->
       ResetAllTracking c s = (Some err, s))
      /\ (forall hash,
             newRequest c "POST" "/templates" (Some [("hash", hash)])
             = inl err ->
             InitializeTemplate c hash s = ((zeroTemplate, Some err), s))
      /\ (forall hash,
             newRequest c "DELETE"
               (GoFmt.Sprintf "/templates/%s" [GoFmt.VString hash]) None
             = inl err ->
             DiscardTemplate c hash s = (Some err, s))
      /\ (forall hash,
             newRequest c "PUT"
               (GoFmt.Sprintf "/templates/%s" [GoFmt.VString hash]) None
             = inl err ->
             FinalizeTemplate c hash s = (Some err, s))
      /\ (forall hash,
             newRequest c "GET"
               (GoFmt.Sprintf "/templates/%s/tests" [GoFmt.VString hash]) None
             = inl err ->
             GetTestDatabase c hash s = ((zeroTest, Some err), s))
      /\ (forall hash id,
             newRequest c "DELETE"
               (GoFmt.Sprintf "/templates/%s/tests/%d"
                  [GoFmt.VString hash; GoFmt.VInt id]) None
             = inl err ->
             ReturnTestDatabase c hash id s = (Some err, s)))
  /\ (forall req m w',
         client c req (env s) = (inl m, w') ->
         let failed := Some (LibError net_http m) in
         let after := recorded s (EvDo req) w' in
         (newRequest c "DELETE" "/admin/templates" None = inr req ->
          ResetAllTracking c s = (failed, after))
         /\ (forall hash,
                newRequest c "POST" "/templates" (Some [("hash", hash)])
                = inr req ->
                InitializeTemplate c hash s = ((zeroTemplate, failed), after))
         /\ (forall hash,
                newRequest c "DELETE"
                  (GoFmt.Sprintf "/templates/%s" [GoFmt.VString hash]) None
                = inr req ->
                DiscardTemplate c hash s = (failed, after))
         /\ (forall hash,
                newRequest c "PUT"
                  (GoFmt.Sprintf "/templates/%s" [GoFmt.VString hash]) None
                = inr req ->
                FinalizeTemplate c hash s = (failed, after))
         /\ (forall hash,
                newRequest c "GET"
                  (GoFmt.Sprintf "/templates/%s/tests" [GoFmt.VString hash])
                  None
                = inr req ->
                GetTestDatabase c hash s = ((zeroTest, failed), after))
         /\ (forall hash id,
                newRequest c "DELETE"
                  (GoFmt.Sprintf "/templates/%s/tests/%d"
                     [GoFmt.VString hash; GoFmt.VInt id]) None
                = inr req ->
                ReturnTestDatabase c hash id s = (failed, after))).
Proof.
  split.
  - intro err.
    unfold ResetAllTracking, InitializeTemplate, DiscardTemplate,
      FinalizeTemplate, GetTestDatabase, ReturnTestDatabase.
    repeat split; intros; match goal with Hr : _ = inl _ |- _ => rewrite Hr end;
      reflexivity.
  - intros req m w' Hc. cbv zeta.
    assert (Hfail : forall (T : Type) (U : Unmarshal T) (v : option T),
               do c req v s
               = ((inl (LibError net_http m), v), recorded s (EvDo req) w')).
    { intros. now apply do_transport_failure. }
    unfold ResetAllTracking, InitializeTemplate, DiscardTemplate,
      FinalizeTemplate, GetTestDatabase, ReturnTestDatabase, bind.
    repeat split; intros; match goal with Hr : _ = inr _ |- _ => rewrite Hr end;
      rewrite Hfail; reflexivity.
Qed.

(** X7. The named error kinds of each operation are those of its status
    switch and no others, whatever the input, the answer and the failure:
    [ResetAllTracking] returns none, [InitializeTemplate] only
    [ErrTemplateAlreadyInitialized] and [ErrManagerNotReady],
    [DiscardTemplate], [FinalizeTemplate] and [ReturnTestDatabase] only
    [ErrTemplateNotFound] and [ErrManagerNotReady], [GetTestDatabase] those two
    and [ErrDatabaseDiscarded]. *)
Theorem error_vocabulary (c : Client) (s : St) (e : error) :
  is_domain_error e = true ->
  (fst (ResetAllTracking c s) <> Some e)
  /\ (forall hash,
         snd (fst (InitializeTemplate c hash s)) = Some e ->
         e = ErrTemplateAlreadyInitialized \/ e = ErrManagerNotReady)
  /\ (forall hash,
         fst (DiscardTemplate c hash s) = Some e ->
         e = ErrTemplateNotFound \/ e = ErrManagerNotReady)
  /\ (forall hash,
         fst (FinalizeTemplate c hash s) = Some e ->
         e = ErrTemplateNotFound \/ e = ErrManagerNotReady)
  /\ (forall hash,
         snd (fst (GetTestDatabase c hash s)) = Some e ->
         e = ErrTemplateNotFound \/ e = ErrDatabaseDiscarded
         \/ e = ErrManagerNotReady)
  /\ (forall hash id,
         fst (ReturnTestDatabase c hash id s) = Some e ->
         e = ErrTemplateNotFound \/ e = ErrManagerNotReady).
Proof.
  intro Hd.
  split; [|split; [|split; [|split; [|split]]]].
  - intro He. apply ResetAllTracking_errors in He. congruence.
  - intros hash He.
    destruct (InitializeTemplate_errors c hash s e He) as [Hk | [Hk | Hk]];
      [now left | now right | congruence].
  - intros hash He.
    destruct (DiscardTemplate_errors c hash s e He) as [Hk | [Hk | Hk]];
      [now left | now right | congruence].
  - intros hash He.
    destruct (FinalizeTemplate_errors c hash s e He) as [Hk | [Hk | Hk]];
      [now left | now right | congruence].
  - intros hash He.
    destruct (GetTestDatabase_errors c hash s e He)
      as [Hk | [Hk | [Hk | Hk]]];
      [now left | right; now left | right; now right | congruence].
  - intros hash id He.
    destruct (ReturnTestDatabase_errors c hash id s e He)
      as [Hk | [Hk | Hk]];
      [now left | now right | congruence].
Qed.

(** X8. [SetupTemplateWithDBClient] without a handle. When
    [InitializeTemplate] does not succeed the call ends there, as
    [SetupTemplate] does: success for [ErrTemplateAlreadyInitialized], the
    error otherwise, and the database is not asked for anything. When
    [sql.Open] fails its error is returned, and nothing is probed, populated,
    finalized or closed. *)
Theorem SetupTemplateWithDBClient_without_handle
        (c : Client) (hash : string) (init : populate_db_fn) (s s1 : St)
        (template : TemplateDatabase) (ierr : option error) :
  InitializeTemplate c hash s = ((template, ierr), s1) ->
  let dsn := ConnectionString (Config template) in
  let run := SetupTemplateWithDBClient c hash init s in
  (ierr = Some ErrTemplateAlreadyInitialized -> run = (None, s1))
  /\ (forall e, ierr = Some e -> e <> ErrTemplateAlreadyInitialized ->
                run = (Some e, s1))
  /\ (forall (e : error) (populate : populate_fn),
         ierr = Some e -> run = SetupTemplate c hash populate s)
  /\ (ierr = None ->
      forall m w2,
        sql_Open "postgres" dsn (env s1) = (inl m, w2) ->
        run = (Some (LibError database_sql m),
               recorded s1 (EvOpen "postgres" dsn) w2)).
Proof.
  intros Hinit dsn run. subst run dsn.
  unfold SetupTemplateWithDBClient, SetupTemplate, bind. rewrite Hinit.
  split; [|split; [|split]].
  - intros ->. reflexivity.
  - intros e -> Hne. destruct e; try reflexivity. contradiction.
  - intros e populate ->. destruct e; reflexivity.
  - intros -> m w2 Hopen. rewrite call_eq, Hopen. reflexivity.
Qed.

(** X9. The entity that [InitializeTemplate] and [GetTestDatabase] hand
    back is what the decoder left in it, with or without an error: on every
    status but 202 and 204 it is what the body decoded to, also beside a
    named error or the failure of the decoder itself; on 202 and 204 it is
    the zero value. *)
Theorem entity_beside_error
        (c : Client) (hash : string) (s : St) (req : http.Request)
        (resp : http.Response) (w' : world) :
  client c req (env s) = (inr resp, w') ->
  (newRequest c "POST" "/templates" (Some [("hash", hash)]) = inr req ->
   (~ bodyless resp ->
    fst (fst (InitializeTemplate c hash s))
    = fst (unmarshal (http.RespBody resp) zeroTemplate))
   /\ (bodyless resp ->
       fst (fst (InitializeTemplate c hash s)) = zeroTemplate))
  /\ (newRequest c "GET"
        (GoFmt.Sprintf "/templates/%s/tests" [GoFmt.VString hash]) None
      = inr req ->
      (~ bodyless resp ->
       fst (fst (GetTestDatabase c hash s))
       = fst (unmarshal (http.RespBody resp) zeroTest))
      /\ (bodyless resp ->
          fst (fst (GetTestDatabase c hash s)) = zeroTest)).
Proof.
  intro Hc. split; intro Hreq; split; intro Hb.
  - now rewrite (InitializeTemplate_decoded c hash s req resp w' Hreq Hc Hb).
  - now rewrite (InitializeTemplate_bodyless c hash s req resp w' Hreq Hc Hb).
  - now rewrite (GetTestDatabase_decoded c hash s req resp w' Hreq Hc Hb).
  - now rewrite (GetTestDatabase_bodyless c hash s req resp w' Hreq Hc Hb).
Qed.

(** ** Headers *)

Lemma Header_Get_Set_same (req : http.Request) (key value : string) :
  Header_Get (http.Header_Set req key value) key = value.
Proof.
  unfold Header_Get, http.Header_Set. cbn [http.Header find fst snd].
  now rewrite String.eqb_refl.
Qed.

Lemma Header_Get_Set_other (req : http.Request) (key key' value : string) :
  key' <> key ->
  Header_Get (http.Header_Set req key value) key' = Header_Get req key'.
Proof.
  intro Hne. unfold Header_Get, http.Header_Set.
  cbn [http.Header find fst snd].
  assert (Hk : String.eqb key key' = false)
    by (apply String.eqb_neq; congruence).
  rewrite Hk. f_equal.
  induction (http.Header req) as [|[k v] hs IH]; [reflexivity|].
  cbn [filter find fst snd].
  destruct (String.eqb_spec k key) as [-> | Hkk]; cbn [negb].
  - rewrite Hk. exact IH.
  - cbn [find fst]. destruct (String.eqb k key'); [reflexivity | exact IH].
Qed.

(** X10. A request that [newRequest] builds asks for JSON, says that it
    sends JSON exactly when it has a body, and is otherwise the request that
    [http.NewRequestWithContext] made: same method, same target, same body,
    same other headers. *)
Theorem newRequest_headers
        (c : Client) (method endpoint : string)
        (body : option (list (string * string))) (req : http.Request) :
  newRequest c method endpoint body = inr req ->
  exists raw : http.Request,
    http.Method req = http.Method raw
    /\ http.URL req = http.URL raw
    /\ http.Body req = http.Body raw
    /\ Header_Get req "Accept" = "application/json"
    /\ (body <> None ->
        Header_Get req "Content-Type" = "application/json; charset=UTF-8")
    /\ (body = None ->
        Header_Get req "Content-Type" = Header_Get raw "Content-Type")
    /\ (forall key,
           key <> "Accept" -> key <> "Content-Type" ->
           Header_Get req key = Header_Get raw key)
    /\ exists buf,
         http_NewRequestWithContext method
           (URL_String
              (ResolveReference (baseURL c)
                 {| url.Scheme := ""; url.Host := "";
                    url.Path := endpointPath c endpoint |})) buf
         = inr raw
         /\ (body = None <-> buf = None).
Proof.
  unfold newRequest. intro Hreq.
  destruct body as [b|].
  - destruct (json_Encode b) as [m | bytes]; [discriminate Hreq|].
    destruct (http_NewRequestWithContext method _ (Some bytes))
      as [m | raw] eqn:Hraw; [discriminate Hreq|].
    inversion Hreq; subst req. exists raw.
    split; [reflexivity|]. split; [reflexivity|]. split; [reflexivity|].
    split; [apply Header_Get_Set_same|].
    split; [intros _; rewrite Header_Get_Set_other by discriminate;
            apply Header_Get_Set_same|].
    split; [intro Habs; discriminate Habs|].
    split; [intros key Ha Hct;
            now rewrite !Header_Get_Set_other by assumption|].
    exists (Some bytes). split; [exact Hraw|]. split; discriminate.
  - destruct (http_NewRequestWithContext method _ None)
      as [m | raw] eqn:Hraw; [discriminate Hreq|].
    inversion Hreq; subst req. exists raw.
    split; [reflexivity|]. split; [reflexivity|]. split; [reflexivity|].
    split; [apply Header_Get_Set_same|].
    split; [intro Habs; now elim Habs|].
    split; [intros _; now rewrite Header_Get_Set_other by discriminate|].
    split; [intros key Ha Hct;
            now rewrite Header_Get_Set_other by assumption|].
    exists None. split; [exact Hraw|]. split; reflexivity.
Qed.

End Footprint.

(* ================================================================== *)
(** * The unexpected status failure *)
(* ================================================================== *)

Section UnexpectedStatus.

Context `{Collaborators}.

Lemma uint_lacks_space (d : Decimal.uint) :
  lacks " " (NilEmpty.string_of_uint d) = true.
Proof. induction d; simpl; try reflexivity; exact IHd. Qed.

Lemma decimal_lacks_space (z : Z) : lacks " " (GoFmt.decimal z) = true.
Proof.
  unfold GoFmt.decimal.
  destruct z as [|p|p]; cbn [Z.to_int NilZero.string_of_int];
    [reflexivity | |];
    destruct (Pos.to_uint p); cbn [NilZero.string_of_uint lacks];
    first [reflexivity | apply uint_lacks_space
           | apply (uint_lacks_space (Decimal.D0 _)) ].
Qed.

Lemma to_int_proper (z : Z) :
  Z.to_int z <> Decimal.Pos Decimal.Nil
  /\ Z.to_int z <> Decimal.Neg Decimal.Nil.
Proof.
  destruct z as [|p|p]; cbn [Z.to_int]; split; try discriminate;
    intro Habs; inversion Habs as [Hn];
    exact (DecimalPos.Unsigned.to_uint_nonnil p Hn).
Qed.

(** [%d] prints different numbers differently. *)
Lemma decimal_injective (z1 z2 : Z) :
  GoFmt.decimal z1 = GoFmt.decimal z2 -> z1 = z2.
Proof.
  unfold GoFmt.decimal. intro Heq.
  apply (f_equal NilZero.int_of_string) in Heq.
  destruct (to_int_proper z1) as [Hp1 Hn1].
  destruct (to_int_proper z2) as [Hp2 Hn2].
  rewrite !NilZero.isi in Heq by assumption.
  inversion Heq as [Hi].
  rewrite <- (DecimalZ.of_to z1), <- (DecimalZ.of_to z2). now rewrite Hi.
Qed.

(** Two texts that agree after what they have before their first
    separator have the same thing before it. *)
Lemma before_separator (sep : ascii) (a b x y : string) :
  lacks sep a = true -> lacks sep b = true ->
  a ++ String sep x = b ++ String sep y -> a = b.
Proof.
  revert b. induction a as [|c a IH]; intros b Ha Hb Heq.
  - destruct b as [|d b]; [reflexivity|].
    simpl in Heq, Hb. inversion Heq; subst d.
    now rewrite Ascii.eqb_refl in Hb.
  - destruct b as [|d b].
    + simpl in Heq, Ha. inversion Heq; subst c.
      now rewrite Ascii.eqb_refl in Ha.
    + simpl in Heq, Ha, Hb. inversion Heq; subst d.
      apply andb_true_iff in Ha. apply andb_true_iff in Hb.
      f_equal. apply (IH b); [apply Ha | apply Hb | assumption].
Qed.

(** X11. The unexpected status failure tells the status codes apart:
    answers with different codes give different errors, so the code can be
    read back from the error. *)
Theorem unexpectedStatus_tells_codes_apart (r1 r2 : http.Response) :
  http.StatusCode r1 <> http.StatusCode r2 ->
  unexpectedStatus r1 <> unexpectedStatus r2.
Proof.
  intros Hne Heq. apply Hne.
  rewrite !unexpectedStatus_message in Heq. inversion Heq as [Hm].
  apply decimal_injective.
  apply (before_separator " " _ _ _ _ (decimal_lacks_space _)
                          (decimal_lacks_space _) Hm).
Qed.

End UnexpectedStatus.

(* ================================================================== *)
(** * The properties at work on the scripted manager *)
(* ================================================================== *)

#[local] Existing Instance Fake.collaborators.

(** The template of the examples is set up: initialized, populated, then
    finalized from the state the populate step left. *)
Lemma SetupTemplate_protocol_witness :
  let s := Fake.answering [Fake.ok_template; Fake.no_content] in
  let s1 := snd (InitializeTemplate Fake.c "abc" s) in
  let conn := Fake.connection Fake.config_abc in
  SetupTemplate Fake.c "abc" Fake.populate_ok s
  = FinalizeTemplate Fake.c "abc"
      (recorded s1 (EvPopulate conn) (snd (Fake.populate_ok conn (env s1)))).
Proof.
  intros s s1 conn.
  refine (proj1 (proj2 (proj2
            (SetupTemplate_protocol Fake.c "abc" Fake.populate_ok s s1
               Fake.template_abc None _))) eq_refl eq_refl).
  vm_compute. reflexivity.
Defined.

(** The handle of the examples is closed once although the manager refuses
    to finalize. *)
Lemma SetupTemplateWithDBClient_closes_handle_witness :
  let s := Fake.answering [Fake.ok_template; Fake.failed_boom] in
  closes (trace (snd (SetupTemplateWithDBClient Fake.c "abc"
                        Fake.populate_db_ok s)))
  = 1.
Proof.
  intro s.
  refine (proj1
            (SetupTemplateWithDBClient_closes_handle Fake.c "abc"
               Fake.populate_db_ok s
               (snd (InitializeTemplate Fake.c "abc" s))
               Fake.template_abc 1
               (env (snd (InitializeTemplate Fake.c "abc" s))) _ _)).
  - vm_compute. reflexivity.
  - vm_compute. reflexivity.
Defined.

(** A locked answer whose body is the error object of the manager signals
    that the template is already initialized. *)
Lemma InitializeTemplate_status_mapping_witness :
  snd (fst (InitializeTemplate Fake.c "abc" (Fake.answering [Fake.locked])))
  = Some ErrTemplateAlreadyInitialized.
Proof.
  pose proof
    (fun req w' Hreq Hdo Hok =>
       proj1 (proj2
         (InitializeTemplate_status_mapping Fake.c "abc"
            (Fake.answering [Fake.locked]) req Fake.locked w' Hreq Hdo Hok)))
    as W.
  eapply W; [reflexivity | reflexivity | right; reflexivity | reflexivity].
Defined.

(** C3 as stated fails: a locked answer whose body is not JSON comes back as
    the failure of the decoder, not as [ErrTemplateAlreadyInitialized]. *)
Lemma InitializeTemplate_locked_undecodable :
  let s := Fake.answering [Fake.locked_html] in
  http.StatusCode Fake.locked_html = 423%Z
  /\ snd (fst (InitializeTemplate Fake.c "abc" s))
     = Some (LibError encoding_json
               "invalid character '<' looking for beginning of value")
  /\ snd (fst (InitializeTemplate Fake.c "abc" s))
     <> Some ErrTemplateAlreadyInitialized.
Proof.
  repeat split; try (vm_compute; reflexivity).
  vm_compute. discriminate.
Qed.

(** A not-found answer with the error object of the manager signals that
    the template is not found. *)
Lemma GetTestDatabase_status_mapping_witness :
  snd (fst (GetTestDatabase Fake.c "abc" (Fake.answering [Fake.not_found])))
  = Some ErrTemplateNotFound.
Proof.
  pose proof
    (fun req w' Hreq Hdo Hok =>
       proj1 (proj2
         (GetTestDatabase_status_mapping Fake.c "abc"
            (Fake.answering [Fake.not_found]) req Fake.not_found w'
            Hreq Hdo Hok)))
    as W.
  eapply W; [reflexivity | reflexivity | right; reflexivity | reflexivity].
Defined.

(** C4 as stated fails: a not-found answer whose body is not JSON comes back
    as the failure of the decoder, not as [ErrTemplateNotFound]. *)
Lemma GetTestDatabase_not_found_undecodable :
  let s := Fake.answering [Fake.not_found_html] in
  http.StatusCode Fake.not_found_html = 404%Z
  /\ snd (fst (GetTestDatabase Fake.c "abc" s))
     = Some (LibError encoding_json
               "invalid character '<' looking for beginning of value")
  /\ snd (fst (GetTestDatabase Fake.c "abc" s)) <> Some ErrTemplateNotFound.
Proof.
  repeat split; try (vm_compute; reflexivity).
  vm_compute. discriminate.
Qed.

(** Both operations signal that an unknown template is not found. *)
Lemma Finalize_Discard_status_mapping_witness :
  let s := Fake.answering [Fake.not_found] in
  fst (FinalizeTemplate Fake.c "never-seen" s) = Some ErrTemplateNotFound
  /\ fst (DiscardTemplate Fake.c "never-seen" s) = Some ErrTemplateNotFound.
Proof.
  intro s.
  destruct (Finalize_Discard_status_mapping Fake.c "never-seen" s)
    as (HF & HD & _).
  split.
  - edestruct HF as (_ & H404 & _); [reflexivity | reflexivity |].
    exact (proj1 (H404 eq_refl)).
  - edestruct HD as (_ & H404 & _); [reflexivity | reflexivity |].
    exact (proj1 (H404 eq_refl)).
Defined.

(** An answer without content leaves the destination as it was, body or
    not. *)
Lemma do_decodes_unless_bodyless_or_nil_witness :
  let s := Fake.answering [Fake.no_content_boom] in
  let req :=
    {| http.Method := "DELETE";
       http.URL := "http://manager:5000/api/v1/admin/templates";
       http.Body := None; http.Header := [("Accept", "application/json")] |} in
  do Fake.c req (Some "before") s
  = ((inr Fake.no_content_boom, Some "before"),
     after_exchange s req (Fake.manager [])).
Proof.
  intros s req.
  refine (proj1
            (do_decodes_unless_bodyless_or_nil Fake.c req (Some "before") s
               Fake.no_content_boom (Fake.manager []) _) _).
  - reflexivity.
  - left. right. reflexivity.
Defined.

(** A failed reset carries the text of the body. *)
Lemma ResetAllTracking_outcome_witness :
  fst (ResetAllTracking Fake.c (Fake.answering [Fake.failed_boom]))
  = Some (Errorf "failed to reset all tracking: boom").
Proof.
  pose proof
    (fun req w' Hreq Hdo H202 H204 =>
       proj1 (proj2 (proj2 (proj2
         (ResetAllTracking_outcome Fake.c (Fake.answering [Fake.failed_boom])
            req Fake.failed_boom w' Hreq Hdo)))) H202 H204 "boom")
    as W.
  eapply W;
    [reflexivity | reflexivity | discriminate | discriminate | reflexivity].
Defined.

(** C8 as stated fails: on 202 the body, which decodes to [boom], is not
    read, and the failure carries no text. *)
Lemma ResetAllTracking_accepted_carries_nothing :
  let s := Fake.answering [Fake.accepted_boom] in
  http.StatusCode Fake.accepted_boom <> 204%Z
  /\ unmarshal (http.RespBody Fake.accepted_boom) "" = ("boom", None)
  /\ fst (ResetAllTracking Fake.c s)
     = Some (Errorf "failed to reset all tracking: ")
  /\ fst (ResetAllTracking Fake.c s)
     <> Some (Errorf ("failed to reset all tracking: "
                        ++ fst (unmarshal (http.RespBody Fake.accepted_boom)
                                          ""))).
Proof.
  repeat split; try (vm_compute; reflexivity); vm_compute; discriminate.
Qed.

(** A locked answer that is not JSON: the failure of the decoder comes back
    and the status is not looked at. *)
Lemma decode_failure_precedes_classification_witness :
  snd (fst (InitializeTemplate Fake.c "abc"
              (Fake.answering [Fake.locked_html])))
  = Some (LibError encoding_json
            "invalid character '<' looking for beginning of value").
Proof.
  pose proof
    (fun req w' Hdo Hb Hreq Hm =>
       proj1 (decode_failure_precedes_classification Fake.c
                (Fake.answering [Fake.locked_html]) req Fake.locked_html w'
                Hdo Hb)
             "abc" "invalid character '<' looking for beginning of value"
             Hreq Hm)
    as W.
  eapply W; [ | | reflexivity | ];
    [reflexivity | intros [Hc | Hc]; discriminate Hc | reflexivity].
Defined.

(** With the client of the examples, the three operations on the empty hash
    send their request to the collection and to [/templates/tests]. *)
Lemma empty_hash_paths_collapse_witness :
  let s := Fake.answering [Fake.no_content] in
  endpointPath Fake.c (GoFmt.Sprintf "/templates/%s" [GoFmt.VString ""])
  = "/api/v1/templates"
  /\ endpointPath Fake.c
       (GoFmt.Sprintf "/templates/%s/tests" [GoFmt.VString ""])
     = "/api/v1/templates/tests"
  /\ exists rest,
      trace (snd (DiscardTemplate Fake.c "" s))
      = EvDo {| http.Method := "DELETE";
                http.URL := "http://manager:5000/api/v1/templates";
                http.Body := None;
                http.Header := [("Accept", "application/json")] |} :: rest.
Proof.
  intro s.
  destruct (empty_hash_paths_collapse Fake.c s)
    as (_ & Ht & Hg & Hd & _).
  split; [rewrite Ht; reflexivity|].
  split; [rewrite Hg; reflexivity|].
  apply (Hd _ eq_refl).
Defined.


(** The value that the populate step returns comes back as it is, whatever
    it is: the client does not look at it. *)
Example SetupTemplate_hands_back_populate_error :
  fst (SetupTemplate Fake.c "abc" (Fake.populate_failing ErrTestNotFound)
         (Fake.answering [Fake.ok_template]))
  = Some ErrTestNotFound.
Proof. vm_compute. reflexivity. Qed.

(* ================================================================== *)
(** * The path and format functions on the examples of their documentation *)
(* ================================================================== *)

Example Clean_documented :
  map GoPath.Clean
      ["a/c"; "a//c"; "a/c/."; "a/c/b/.."; "/../a/c"; "/../a/b/../././/c"; ""]
  = ["a/c"; "a/c"; "a/c"; "a/c"; "/a/c"; "/a/c"; "."].
Proof. reflexivity. Qed.

Example Join_documented :
  map GoPath.Join
      [["a"; "b"; "c"]; ["a"; "b/c"]; ["a/b"; "c"]; ["a/b"; "../../../xyz"];
       [""; ""]; ["a"; ""]; [""; "a"]]
  = ["a/b/c"; "a/b/c"; "a/b/c"; "../xyz"; ""; "a"; "a"].
Proof. reflexivity. Qed.

Example Sprintf_return_endpoint :
  GoFmt.Sprintf "/templates/%s/tests/%d" [GoFmt.VString "abc"; GoFmt.VInt 7]
  = "/templates/abc/tests/7".
Proof. reflexivity. Qed.

(** A hash that is not empty keeps its own segment. *)
Example endpointPath_per_hash :
  endpointPath Fake.c (GoFmt.Sprintf "/templates/%s" [GoFmt.VString "abc"])
  = "/api/v1/templates/abc"
  /\ endpointPath Fake.c
       (GoFmt.Sprintf "/templates/%s/tests" [GoFmt.VString "abc"])
     = "/api/v1/templates/abc/tests".
Proof. split; reflexivity. Qed.

(** The whole life of a template and of a test database on the scripted
    manager: set up, checked out, returned. *)
Example scenario :
  let s0 := Fake.answering [Fake.ok_template; Fake.no_content; Fake.ok_test;
                            Fake.no_content] in
  let '(e1, s1) := SetupTemplate Fake.c "abc" Fake.populate_ok s0 in
  let '((test, e2), s2) := GetTestDatabase Fake.c "abc" s1 in
  let '(e3, s3) := ReturnTestDatabase Fake.c "abc" (models.ID test) s2 in
  (e1, e2, e3) = (None, None, None)
  /\ test = Fake.test_abc
  /\ Fake.populated (env s3) = 1
  /\ Fake.script (env s3) = [].
Proof. vm_compute. repeat split. Qed.

(* ================================================================== *)
(** * Paths, failures and headers on the scripted manager *)
(* ================================================================== *)

(** The path of a checked out test database of the template [abc]. *)
Lemma plain_hash_paths_witness :
  endpointPath Fake.c
    (GoFmt.Sprintf "/templates/%s/tests/%d"
       [GoFmt.VString "abc"; GoFmt.VInt 7])
  = "/api/v1/templates/abc/tests/7".
Proof.
  destruct (plain_hash_paths Fake.c "abc" 7 eq_refl) as (_ & _ & H3).
  rewrite H3. reflexivity.
Defined.

(** Two templates, two paths. *)
Lemma plain_hash_paths_injective_witness :
  endpointPath Fake.c (GoFmt.Sprintf "/templates/%s" [GoFmt.VString "abc"])
  <> endpointPath Fake.c (GoFmt.Sprintf "/templates/%s" [GoFmt.VString "abd"]).
Proof.
  intro Heq.
  pose proof (plain_hash_paths_injective Fake.c "abc" "abd" eq_refl eq_refl
                                         Heq) as Habs.
  discriminate Habs.
Defined.

(** Discarding the hash [../admin/templates] asks the manager to forget
    everything. *)
Lemma dotdot_hash_leaves_templates_witness :
  let s := Fake.answering [Fake.no_content] in
  endpointPath Fake.c
    (GoFmt.Sprintf "/templates/%s" [GoFmt.VString "../admin/templates"])
  = "/api/v1/admin/templates"
  /\ exists rest1 rest2,
      trace (snd (DiscardTemplate Fake.c "../admin/templates" s))
      = (trace s
         ++ EvDo {| http.Method := "DELETE";
                    http.URL := "http://manager:5000/api/v1/admin/templates";
                    http.Body := None;
                    http.Header := [("Accept", "application/json")] |}
         :: rest1)%list
      /\ trace (snd (ResetAllTracking Fake.c s))
         = (trace s
            ++ EvDo {| http.Method := "DELETE";
                       http.URL :=
                         "http://manager:5000/api/v1/admin/templates";
                       http.Body := None;
                       http.Header := [("Accept", "application/json")] |}
            :: rest2)%list.
Proof.
  intro s.
  destruct (dotdot_hash_leaves_templates Fake.c s) as (Hp & _ & Hd).
  split.
  - change "../admin/templates" with ("../" ++ "admin/templates").
    rewrite Hp. reflexivity.
  - apply (Hd _ eq_refl).
Defined.

(** The manager cannot be reached: the failure of the transport comes
    back; and where no request can be made nothing is sent at all. *)
Lemma failure_before_answer_witness :
  ResetAllTracking Fake.c Outage.unreachable
  = (Some (LibError net_http "connection refused"),
     recorded Outage.unreachable
       (EvDo {| http.Method := "DELETE";
                http.URL := "http://manager:5000/api/v1/admin/templates";
                http.Body := None;
                http.Header := [("Accept", "application/json")] |})
       (Fake.manager []))
  /\ InitializeTemplate Broken.c "abc" Broken.start
     = ((models.zeroTemplate, Some (LibError net_http "net/http: nil Context")),
        Broken.start).
Proof.
  split.
  - refine (proj1 (proj2 (failure_before_answer Fake.c Outage.unreachable)
                     _ "connection refused" (Fake.manager []) _) _);
      reflexivity.
  - refine (proj1 (proj2 (proj1 (failure_before_answer Broken.c Broken.start)
                            (LibError net_http "net/http: nil Context")))
                  "abc" _).
    reflexivity.
Defined.

(** [GetTestDatabase] does not know the kind of [InitializeTemplate]. *)
Lemma error_vocabulary_witness :
  snd (fst (GetTestDatabase Fake.c "abc" (Fake.answering [Fake.locked])))
  <> Some ErrTemplateAlreadyInitialized.
Proof.
  intro He.
  destruct (error_vocabulary Fake.c (Fake.answering [Fake.locked])
              ErrTemplateAlreadyInitialized eq_refl)
    as (_ & _ & _ & _ & Hget & _).
  destruct (Hget "abc" He) as [Hk | [Hk | Hk]]; discriminate Hk.
Defined.

(** The database server refuses the handle: its error comes back and
    nothing is closed. *)
Lemma SetupTemplateWithDBClient_without_handle_witness :
  let s := Outage.no_database [Fake.ok_template] in
  let run := SetupTemplateWithDBClient Fake.c "abc" Fake.populate_db_ok s in
  fst run = Some (LibError database_sql "sql: unknown driver")
  /\ closes (trace (snd run)) = 0
  /\ populates (trace (snd run)) = 0.
Proof.
  intros s run.
  pose proof
    (proj2 (proj2 (proj2
       (SetupTemplateWithDBClient_without_handle Fake.c "abc"
          Fake.populate_db_ok s (snd (InitializeTemplate Fake.c "abc" s))
          Fake.template_abc None eq_refl)))
       eq_refl "sql: unknown driver"
       (env (snd (InitializeTemplate Fake.c "abc" s))) eq_refl) as Hrun.
  subst run. rewrite Hrun. repeat split.
Defined.

(** A locked answer that carries a template: the template comes back
    beside the error. *)
Lemma entity_beside_error_witness :
  fst (InitializeTemplate Fake.c "abc"
         (Fake.answering [Outage.locked_with_template]))
  = (Fake.template_abc, Some ErrTemplateAlreadyInitialized).
Proof.
  pose proof
    (fun req w' Hc Hreq Hb =>
       proj1 (proj1 (entity_beside_error Fake.c "abc"
                       (Fake.answering [Outage.locked_with_template]) req
                       Outage.locked_with_template w' Hc) Hreq) Hb) as W.
  apply injective_projections.
  - erewrite W; [reflexivity | | reflexivity |];
      [reflexivity | intros [Hc | Hc]; discriminate Hc].
  - reflexivity.
Defined.

(** The request of [InitializeTemplate] says what it sends and what it
    wants. *)
Lemma newRequest_headers_witness :
  match newRequest Fake.c "POST" "/templates" (Some [("hash", "abc")]) with
  | inr req =>
      Header_Get req "Accept" = "application/json"
      /\ Header_Get req "Content-Type" = "application/json; charset=UTF-8"
  | inl _ => False
  end.
Proof.
  destruct (newRequest Fake.c "POST" "/templates" (Some [("hash", "abc")]))
    as [e | req] eqn:Hreq; [vm_compute in Hreq; discriminate Hreq|].
  destruct (newRequest_headers Fake.c _ _ _ req Hreq)
    as (raw & _ & _ & _ & Ha & Hct & _).
  split; [exact Ha | apply Hct; discriminate].
Defined.

(** 500 and 502 give two errors, although the status lines are the same. *)
Lemma unexpectedStatus_tells_codes_apart_witness :
  unexpectedStatus Outage.failed_500 <> unexpectedStatus Outage.failed_502.
Proof.
  apply unexpectedStatus_tells_codes_apart. vm_compute. discriminate.
Defined.

(** A set up against a manager that says the template is there already:
    one exchange, no populate step. *)
Example Setup_bounds_locked :
  let s := Fake.answering [Fake.locked] in
  let after := snd (SetupTemplate Fake.c "abc" Fake.populate_ok s) in
  exchanges (trace after) = 1 /\ populates (trace after) = 0
  /\ body_closes (trace after) = 1.
Proof. vm_compute. repeat split. Qed.
